(** * Frequency generator page of Arduino-Simple-DSO (PageFrequencyGenerator.cpp)

    Shallow embedding of the frequency synthesis part of
    [src/src/PageFrequencyGenerator.cpp] (non-AVR build, where
    [sFrequencyInfo] and [setWaveformFrequency] are compiled).

    - Single precision arithmetic is an interface [Float32] with two
      instances: [binary32_ops], IEEE-754 binary32 with round to nearest even
      built from the Standard Library's [SpecFloat] (executable), and
      [real_ops fl], the real numbers with an abstract rounding operator [fl]
      on which the standard error model of binary32 is assumed in the proofs.
    - The libm calls [pow] and [log10f] form a second interface [Libm].
    - The global variables [sFrequencyInfo], [is10HzRange] and the effects on
      the synthesizer timer and on the display are threaded through a small
      state monad with failure ([None] = the call does not return). *)

From Stdlib Require Import ZArith Lia List.
From Stdlib Require Import Floats.SpecFloat.
From Stdlib Require Import Reals Lra.
Import ListNotations.

Open Scope Z_scope.

(** ** Constants of the source *)

Definition WAVEFORM_SQUARE : Z := 0.
Definition WAVEFORM_SINE : Z := 1.
Definition WAVEFORM_TRIANGLE : Z := 2.
Definition WAVEFORM_SAWTOOTH : Z := 3.

Definition FREQ_SLIDER_MAX_VALUE : Z := 300.
Definition INDEX_OF_10HZ : Z := 2.

(** The literal [36000000000] (timer clock 36 MHz times 1000, type
    [long long]). *)
Definition TIMER_CLOCK_TIMES_1000 : Z := 36000000000.

Definition u32_max : Z := 4294967295.

(** Character codes drawn after the period: ['\xB5'] (micro) and ['m']. *)
Definition MICRO_CHAR : Z := 181.
Definition MILLI_CHAR : Z := 109.

(** ** Single precision arithmetic *)

(** The operations of [float] the source uses.  [f_of_Z] is the conversion
    of an integer ([int], [uint32_t], [long long]) to [float];
    [f_gtb a b] is [a > b] and [f_ltb a b] is [a < b];
    [f_to_u32] is the conversion [float -> uint32_t].  The C++ conversion is
    undefined out of range; the target (Cortex-M4 FPU, [vcvt.u32.f32])
    truncates toward zero and saturates to [0 .. 2^32-1], NaN giving 0. *)
Class Float32 (F : Type) := {
  f_of_Z : Z -> F;
  f_div : F -> F -> F;
  f_mul : F -> F -> F;
  f_add : F -> F -> F;
  f_gtb : F -> F -> bool;
  f_ltb : F -> F -> bool;
  f_to_u32 : F -> Z;
  f_to_u32_range : forall x, 0 <= f_to_u32 x <= u32_max
}.

(** [float -> uint16_t]: the u32 conversion followed by keeping the low
    half-word (the values the source converts are in range). *)
Definition f_to_u16 {F} `{Float32 F} (x : F) : Z := f_to_u32 x mod 2 ^ 16.

(** The libm functions: [f_pow10 x] is [(float) pow(10, (double) x)] and
    [f_log10] is [log10f]. *)
Class Libm (F : Type) := {
  f_pow10 : F -> F;
  f_log10 : F -> F
}.

Module Binary32.

Definition prec : Z := 24.
Definition emax : Z := 128.

Definition of_Z (z : Z) : spec_float := binary_normalize prec emax z 0 false.
Definition div : spec_float -> spec_float -> spec_float := SFdiv prec emax.
Definition mul : spec_float -> spec_float -> spec_float := SFmul prec emax.
Definition add : spec_float -> spec_float -> spec_float := SFadd prec emax.

Definition gtb (x y : spec_float) : bool :=
  match SFcompare x y with Some Gt => true | _ => false end.
Definition ltb (x y : spec_float) : bool :=
  match SFcompare x y with Some Lt => true | _ => false end.

(** Integer part of the positive value [m * 2^e]. *)
Definition trunc_pos (m : positive) (e : Z) : Z :=
  if 0 <=? e then Z.pos m * 2 ^ e else Z.pos m / 2 ^ (- e).



Definition to_u32 (x : spec_float) : Z :=
  match x with
  | S754_infinity false => u32_max
  | S754_finite false m e => Z.min (trunc_pos m e) u32_max
  | _ => 0
  end.

Definition to_u32_range (x : spec_float) : 0 <= to_u32 x <= u32_max :=
  ltac:(destruct x as [s|[|]| |[|] m e]; simpl; unfold u32_max; try lia;
        unfold trunc_pos; destruct (0 <=? e);
        [ pose proof (Z.pow_nonneg 2 e ltac:(lia))
        | pose proof (Z_div_nonneg_nonneg (Z.pos m) (2 ^ (- e)) ltac:(lia)
                        (Z.pow_nonneg 2 (- e) ltac:(lia))) ]; nia).

(** The exact rational value of a finite float. *)
Definition value (x : spec_float) : option (Z * Z) :=
  match x with
  | S754_zero _ => Some (0, 1)
  | S754_finite s m e =>
      let n := if s then Z.neg m else Z.pos m in
      if 0 <=? e then Some (n * 2 ^ e, 1) else Some (n, 2 ^ (- e))
  | _ => None
  end.

End Binary32.

#[export] Instance binary32_ops : Float32 spec_float := {|
  f_of_Z := Binary32.of_Z;
  f_div := Binary32.div;
  f_mul := Binary32.mul;
  f_add := Binary32.add;
  f_gtb := Binary32.gtb;
  f_ltb := Binary32.ltb;
  f_to_u32 := Binary32.to_u32;
  f_to_u32_range := Binary32.to_u32_range
|}.

(** ** Program state *)

(** [struct FrequencyInfoStruct]; the union [ControlValue] is read and
    written only as [DividerInt] in this file. *)
Record FrequencyInfoStruct {F : Type} := mkFrequencyInfo {
  DividerInt : Z;
  PeriodMicros : Z;
  Frequency : F;
  FrequencyFactorTimes1000 : Z;
  FrequencyFactorIndex : Z;
  Waveform : Z;
  isOutputEnabled : bool
}.
Arguments FrequencyInfoStruct : clear implicits.

(** Calls to the synthesizer timer driver. *)
Inductive TimerCall :=
| Synth_Timer32_SetReloadValue (aReloadValue : Z)
| Synth_Timer16_SetReloadValue (aReloadValue aPrescalerValue : Z)
| Synth_Timer_Start
| Synth_Timer_Stop.

(** What [printFrequencyAndPeriod] draws. *)
Inductive DisplayOut {F : Type} :=
| DrawFrequency (aFrequency : F) (aFactorIndex : Z)
| DrawPeriod (aPeriod : F) (aUnitChar : Z)
| SetSliderValue (aSliderValue : Z).
Arguments DisplayOut : clear implicits.

(** The globals of the page: [sFrequencyInfo], [is10HzRange], and the
    sequences of driver calls and of display outputs, newest first. *)
Record Globals {F : Type} := mkGlobals {
  sFrequencyInfo : FrequencyInfoStruct F;
  is10HzRange : bool;
  timerCalls : list TimerCall;
  display : list (DisplayOut F)
}.
Arguments Globals : clear implicits.

(** The two builds of [setWaveformFrequency]: [STM32F30X] (32 bit reload)
    and the other targets (16 bit reload with prescaler). *)
Inductive Platform := STM32F30X | Timer16Platform.

Section Program.

Context {F : Type} `{Float32 F}.

Definition set_info (fi : FrequencyInfoStruct F) (g : Globals F) : Globals F :=
  mkGlobals F fi (is10HzRange g) (timerCalls g) (display g).

Definition with_DividerInt (v : Z) (fi : FrequencyInfoStruct F) :=
  mkFrequencyInfo F v (PeriodMicros fi) (Frequency fi)
    (FrequencyFactorTimes1000 fi) (FrequencyFactorIndex fi) (Waveform fi)
    (isOutputEnabled fi).

Definition with_Frequency (v : F) (fi : FrequencyInfoStruct F) :=
  mkFrequencyInfo F (DividerInt fi) (PeriodMicros fi) v
    (FrequencyFactorTimes1000 fi) (FrequencyFactorIndex fi) (Waveform fi)
    (isOutputEnabled fi).

Definition with_Factor (factor index : Z) (fi : FrequencyInfoStruct F) :=
  mkFrequencyInfo F (DividerInt fi) (PeriodMicros fi) (Frequency fi)
    factor index (Waveform fi) (isOutputEnabled fi).

Definition with_Waveform (w : Z) (fi : FrequencyInfoStruct F) :=
  mkFrequencyInfo F (DividerInt fi) (PeriodMicros fi) (Frequency fi)
    (FrequencyFactorTimes1000 fi) (FrequencyFactorIndex fi) w
    (isOutputEnabled fi).

Definition with_OutputEnabled (b : bool) (fi : FrequencyInfoStruct F) :=
  mkFrequencyInfo F (DividerInt fi) (PeriodMicros fi) (Frequency fi)
    (FrequencyFactorTimes1000 fi) (FrequencyFactorIndex fi) (Waveform fi) b.

(** State monad with failure. *)
Definition M (A : Type) := Globals F -> option (A * Globals F).

Definition ret {A} (a : A) : M A := fun g => Some (a, g).
Definition bind {A B} (m : M A) (k : A -> M B) : M B :=
  fun g => match m g with Some (a, g') => k a g' | None => None end.
Definition modify_info (f : FrequencyInfoStruct F -> FrequencyInfoStruct F)
  : M unit := fun g => Some (tt, set_info (f (sFrequencyInfo g)) g).
Definition get : M (Globals F) := fun g => Some (g, g).
Definition timer_call (c : TimerCall) : M unit :=
  fun g => Some (tt, mkGlobals F (sFrequencyInfo g) (is10HzRange g)
                       (c :: timerCalls g) (display g)).
Definition draw (d : DisplayOut F) : M unit :=
  fun g => Some (tt, mkGlobals F (sFrequencyInfo g) (is10HzRange g)
                       (timerCalls g) (d :: display g)).

Local Notation "x <- m ;; k" := (bind m (fun x => k))
  (at level 61, m at next level, right associativity).
Local Notation "m ;; k" := (bind m (fun _ => k))
  (at level 61, right associativity).

(** [setFrequencyFactor]: [tFactor] is a [uint32_t] multiplied by 1000
    [aIndexValue] times; the index is stored in a [uint8_t]. *)
Fixpoint factor_loop (n : nat) (tFactor : Z) : Z :=
  match n with
  | O => tFactor
  | S n' => factor_loop n' ((tFactor * 1000) mod 2 ^ 32)
  end.

Definition setFrequencyFactor (aIndexValue : Z) : M unit :=
  modify_info (with_Factor (factor_loop (Z.to_nat aIndexValue) 1)
                           (aIndexValue mod 256)).

(** The square wave computation of [setWaveformFrequency], from the
    frequency, the factor and the platform: the value of [hasError], the
    call made to the driver and the value stored in [DividerInt]. *)
Definition tPeriod (fi : FrequencyInfoStruct F) : F :=
  f_div (f_of_Z (Z.quot TIMER_CLOCK_TIMES_1000 (FrequencyFactorTimes1000 fi)))
        (Frequency fi).

Definition square_reload (pf : Platform) (fi : FrequencyInfoStruct F)
  : bool * TimerCall * Z :=
  let tPeriodInt0 := f_to_u32 (tPeriod fi) in
  let hasError := tPeriodInt0 <? 2 in
  let tPeriodInt := if hasError then 2 else tPeriodInt0 in
  match pf with
  | STM32F30X => (hasError, Synth_Timer32_SetReloadValue tPeriodInt, tPeriodInt)
  | Timer16Platform =>
      let tPrescalerValue := Z.shiftr tPeriodInt 16 + 1 in
      let tReload := if 1 <? tPrescalerValue
                     then tPeriodInt / tPrescalerValue else tPeriodInt in
      (hasError, Synth_Timer16_SetReloadValue tReload tPrescalerValue,
       (tReload * tPrescalerValue) mod 2 ^ 32)
  end.

(** The value of [tPeriodInt] after the lower clip. *)
Definition clipped_ticks (fi : FrequencyInfoStruct F) : Z :=
  let t := f_to_u32 (tPeriod fi) in if t <? 2 then 2 else t.

Definition setWaveformFrequency (pf : Platform) : M bool :=
  g <- get ;;
  let fi := sFrequencyInfo g in
  if Waveform fi =? WAVEFORM_SQUARE then
    let '(hasError, call, tPeriodInt) := square_reload pf fi in
    timer_call call ;;
    modify_info (with_DividerInt tPeriodInt) ;;
    ret hasError
  else ret true.

(** The loop [while (aValue > 1000) { aValue /= 1000; tIndex++; }] of
    [setFrequency], with fuel: [None] when the fuel runs out, which stands for
    a loop that does not end (an infinite [aValue]). *)
Fixpoint normalize_loop (fuel : nat) (aValue : F) (tIndex : Z)
  : option (F * Z) :=
  if f_gtb aValue (f_of_Z 1000) then
    match fuel with
    | O => None
    | S fuel' => normalize_loop fuel' (f_div aValue (f_of_Z 1000))
                   ((tIndex + 1) mod 256)
    end
  else Some (aValue, tIndex).

Definition loop_fuel : nat := 64.

(** The value of [aValue] after [k] passes of the loop body
    [aValue /= 1000] of [setFrequency]. *)
Fixpoint div1000_iter (k : nat) (aValue : F) : F :=
  match k with
  | O => aValue
  | S k' => div1000_iter k' (f_div aValue (f_of_Z 1000))
  end.

(** The decade normalisation of [setFrequency] (square waveform). *)
Definition normalize (aValue : F) : option (F * Z) :=
  match normalize_loop loop_fuel aValue 1 with
  | Some (v, tIndex) =>
      if f_ltb v (f_of_Z 1) then Some (f_mul v (f_of_Z 1000), 0)
      else Some (v, tIndex)
  | None => None
  end.

Definition setFrequency (pf : Platform) (aValue : F) : M unit :=
  g <- get ;;
  (if Waveform (sFrequencyInfo g) =? WAVEFORM_SQUARE then
     fun g' => match normalize aValue with
               | Some (v, tIndex) =>
                   (setFrequencyFactor tIndex ;;
                    modify_info (with_Frequency v)) g'
               | None => None
               end
   else modify_info (with_Frequency aValue)) ;;
  _ <- setWaveformFrequency pf ;;
  ret tt.

End Program.

Section Page.

Context {F : Type} `{Float32 F} `{Libm F}.
Variable pf : Platform.

Local Notation "x <- m ;; k" := (bind m (fun x => k))
  (at level 61, m at next level, right associativity).
Local Notation "m ;; k" := (bind m (fun _ => k))
  (at level 61, right associativity).

(** The frequency recomputed by [printFrequencyAndPeriod] from the integer
    period [DividerInt]. *)
Definition realized_frequency (fi : FrequencyInfoStruct F) : F :=
  f_div (f_of_Z (Z.quot TIMER_CLOCK_TIMES_1000 (FrequencyFactorTimes1000 fi)))
        (f_of_Z (DividerInt fi)).

(** [tSliderValue] of [printFrequencyAndPeriod]: a [uint16_t]. *)
Definition slider_value (is10Hz : bool) (aFrequency : F) : Z :=
  let tSliderValue := f_to_u16 (f_mul (f_log10 aFrequency) (f_of_Z 100)) in
  if is10Hz then (tSliderValue - 100) mod 2 ^ 16 else tSliderValue.

(** The frequency [doFrequencySlider] computes from the slider value. *)
Definition slider_frequency (is10Hz : bool) (aValue : Z) : F :=
  let tValue := f_div (f_of_Z aValue) (f_of_Z (FREQ_SLIDER_MAX_VALUE / 3)) in
  let tValue := if is10Hz then f_add tValue (f_of_Z 1) else tValue in
  f_pow10 tValue.

Definition printFrequencyAndPeriod : M unit :=
  g <- get ;;
  let fi := sFrequencyInfo g in
  let tPeriodFloat := f_of_Z (DividerInt fi) in
  draw (DrawFrequency (realized_frequency fi) (FrequencyFactorIndex fi)) ;;
  let tPeriodMicros := f_div tPeriodFloat (f_of_Z 36) in
  let '(tPeriodMicros, tUnitChar) :=
    if f_gtb tPeriodMicros (f_of_Z 10000)
    then (f_div tPeriodMicros (f_of_Z 1000), MILLI_CHAR)
    else (tPeriodMicros, MICRO_CHAR) in
  draw (DrawPeriod tPeriodMicros tUnitChar) ;;
  draw (SetSliderValue (slider_value (is10HzRange g) (Frequency fi))).

Definition SetWaveformFrequencyAndPrintValues : M bool :=
  hasError <- setWaveformFrequency pf ;;
  printFrequencyAndPeriod ;;
  ret hasError.

Definition doFrequencySlider (aValue : Z) : M unit :=
  g <- get ;;
  modify_info (with_Frequency (slider_frequency (is10HzRange g) aValue)) ;;
  _ <- SetWaveformFrequencyAndPrintValues ;;
  ret tt.

(** Handler of the number received from the remote display. *)
Definition doSetFrequency (aValue : F) : M unit :=
  setFrequency pf aValue ;;
  printFrequencyAndPeriod.

End Page.

(** ** The other handlers of the page *)

Section Handlers.

Context {F : Type} `{Float32 F} `{Libm F}.
Variable pf : Platform.

Local Notation "x <- m ;; k" := (bind m (fun x => k))
  (at level 61, m at next level, right associativity).
Local Notation "m ;; k" := (bind m (fun _ => k))
  (at level 61, right associativity).

(** [FixedFrequencyButtonCaptions]: the values of the fixed frequency
    buttons. *)
Definition FixedFrequencyButtonCaptions : list Z :=
  [1; 2; 5; 10; 20; 50; 100; 200; 500; 1000].

(** A value stored back into an [int16_t] (two's complement wrap). *)
Definition to_int16 (z : Z) : Z := (z + 32768) mod 65536 - 32768.

(** Assignment [is10HzRange = b]. *)
Definition set_is10HzRange (b : bool) : M unit :=
  fun g => Some (tt, mkGlobals F (sFrequencyInfo g) b (timerCalls g) (display g)).

(** [doSetFixedFrequency]: [aValue] is the [int16_t] value of the touched
    button.  The result is the argument of [playFeedbackTone], the
    [hasError] returned by [SetWaveformFrequencyAndPrintValues]. *)
Definition doSetFixedFrequency (aValue : Z) : M bool :=
  g <- get ;;
  let aValue := if is10HzRange g then to_int16 (aValue * 10) else aValue in
  modify_info (with_Frequency (f_of_Z aValue)) ;;
  SetWaveformFrequencyAndPrintValues pf.

(** [doChangeFrequencyRange]: the range buttons are created with their
    index [i] as value, so the touched button is
    [TouchButtonFrequencyRanges[aValue]]; [aActive] is the index of the
    button held in [ActiveTouchButtonFrequencyRange] and the result is its
    index after the call.  The colours of the buttons are not modelled. *)
Definition doChangeFrequencyRange (aActive aValue : Z) : M Z :=
  if negb (aActive =? aValue) then
    set_is10HzRange (aValue =? INDEX_OF_10HZ) ;;
    let aValue' := if INDEX_OF_10HZ <=? aValue then aValue - 1 else aValue in
    setFrequencyFactor aValue' ;;
    _ <- SetWaveformFrequencyAndPrintValues pf ;;
    ret aValue
  else ret aActive.

(** [doFrequencyGeneratorStartStop]: [aValue] is the [int16_t] value of the
    toggle button, converted to [bool] for [isOutputEnabled]. *)
Definition doFrequencyGeneratorStartStop (aValue : Z) : M unit :=
  modify_info (with_OutputEnabled (negb (aValue =? 0))) ;;
  if negb (aValue =? 0) then
    timer_call Synth_Timer_Start ;;
    _ <- SetWaveformFrequencyAndPrintValues pf ;;
    ret tt
  else timer_call Synth_Timer_Stop.

(** [drawFrequencyGeneratorPage]: the buttons, the slider and the labels
    it draws are not modelled; it ends with [printFrequencyAndPeriod]. *)
Definition drawFrequencyGeneratorPage : M unit := printFrequencyAndPeriod.

(** [startFrequencyGeneratorPage] (non-AVR build): clearing the display and
    the redraw callbacks are not modelled. *)
Definition startFrequencyGeneratorPage : M unit :=
  drawFrequencyGeneratorPage ;;
  _ <- setWaveformFrequency pf ;;
  timer_call Synth_Timer_Start.

End Handlers.

(** The globals before [initFrequencyGeneratorPage]: [sFrequencyInfo] is
    zero initialised, [is10HzRange] is initialised to [true]. *)
Definition boot_globals {F} `{Float32 F} : Globals F :=
  mkGlobals F (mkFrequencyInfo F 0 0 (f_of_Z 0) 0 0 0 false) true [] [].

(** [initFrequencyGeneratorPage] (its GUI part draws nothing that is
    modelled). *)
Definition initFrequencyGeneratorPage {F} `{Float32 F} (pf : Platform)
  : M unit :=
  bind (modify_info (with_Waveform WAVEFORM_SQUARE)) (fun _ =>
  bind (setFrequency pf (f_of_Z 200)) (fun _ =>
  modify_info (with_OutputEnabled true))).

(** Running a computation from a state. *)
Definition run {F A} (m : @M F A) (g : Globals F) : option (Globals F) :=
  match m g with Some (_, g') => Some g' | None => None end.

Definition eval {F A} (m : @M F A) (g : Globals F) : option A :=
  match m g with Some (a, _) => Some a | None => None end.

(** ** The real number instance *)

(** [real_ops fl]: every [float] result is [fl] of the exact result; the
    conversion to [uint32_t] truncates and saturates as [Binary32.to_u32]
    does ([Int_part] is the floor, the same as the truncation on the
    non-negative numbers that are not saturated). *)
Section RealOps.

Variable fl : R -> R.

Definition real_to_u32 (x : R) : Z := Z.max 0 (Z.min (Int_part x) u32_max).

Definition real_gtb (x y : R) : bool := if Rlt_dec y x then true else false.
Definition real_ltb (x y : R) : bool := if Rlt_dec x y then true else false.

Definition real_ops : Float32 R := {|
  f_of_Z z := fl (IZR z);
  f_div x y := fl (x / y);
  f_mul x y := fl (x * y);
  f_add x y := fl (x + y);
  f_gtb := real_gtb;
  f_ltb := real_ltb;
  f_to_u32 := real_to_u32;
  f_to_u32_range := ltac:(intro x; unfold real_to_u32, u32_max; lia)
|}.

(** [real_libm pow10d log10f]: [pow10d t] is the [double] result of
    [pow(10, t)], rounded to [float] by the assignment; [log10f] returns a
    [float]. *)
Variables pow10d log10f : R -> R.

Definition real_libm : Libm R := {|
  f_pow10 t := fl (pow10d t);
  f_log10 := log10f
|}.

End RealOps.

(** ** Fixtures *)

(** The real value of a binary32 number (0 for infinities and NaN). *)
Definition b32_to_R (x : spec_float) : R :=
  match Binary32.value x with
  | Some (n, d) => (IZR n / IZR d)%R
  | None => 0%R
  end.

(** A square wave state with target [f] in decade [idx]. *)
Definition square_globals (f idx : Z) : Globals spec_float :=
  mkGlobals spec_float
    (mkFrequencyInfo spec_float 0 0 (Binary32.of_Z f)
       (factor_loop (Z.to_nat idx) 1) idx WAVEFORM_SQUARE true)
    false [] [].

(** The state after [initFrequencyGeneratorPage] on the 32 bit platform. *)
Definition init_globals32 : option (Globals spec_float) :=
  run (initFrequencyGeneratorPage STM32F30X) boot_globals.

(** Property P2 of the spec read on a binary32 state, with the reload
    [DividerInt] as effective reload:
    |realized - target * factor / 1000| / target <= 1 / effective_reload. *)
Definition spec_P2 (fi : FrequencyInfoStruct spec_float) : Prop :=
  (Rabs (b32_to_R (realized_frequency fi)
         - b32_to_R (Frequency fi) * IZR (FrequencyFactorTimes1000 fi) / 1000)
   / b32_to_R (Frequency fi) <= 1 / IZR (DividerInt fi))%R.

(** The same bound with the target in the unit of the decade. *)
Definition decade_P2 (fi : FrequencyInfoStruct spec_float) : Prop :=
  (Rabs (b32_to_R (realized_frequency fi) - b32_to_R (Frequency fi))
   / b32_to_R (Frequency fi) <= 1 / IZR (DividerInt fi))%R.

(** The real number instance with exact operations and the exact
    [pow] and [log10]. *)
Definition log10 (x : R) : R := (ln x / ln 10)%R.
Definition exact_ops : Float32 R := real_ops (fun x => x).
Definition exact_libm : Libm R := real_libm (fun x => x) (Rpower 10) log10.

(** A square wave state of the real instance, target [f] in decade [idx]. *)
Definition real_square_globals (f : R) (idx : Z) : Globals R :=
  mkGlobals R
    (mkFrequencyInfo R 0 0 f (factor_loop (Z.to_nat idx) 1) idx
       WAVEFORM_SQUARE true)
    false [] [].

(** The reload passed to the driver by a timer call. *)
Definition reload_of_call (c : TimerCall) : Z :=
  match c with
  | Synth_Timer32_SetReloadValue v => v
  | Synth_Timer16_SetReloadValue r _ => r
  | _ => 0
  end.

(** Bounds of binary32 round to nearest: the largest power of two below
    the overflow threshold, the unit roundoff 2^-24, half the smallest
    subnormal 2^-150, and a relative bound 2^-23 for normal results. *)
Definition b32_big : R := 170141183460469231731687303715884105728.
Definition b32_eps : R := / 16777216.
Definition b32_eta : R :=
  / 1427247692705959881058285969449495136382746624.
Definition rho : R := / 8388608.

(** Replaces each [Binary32.value x] of the goal by its value. *)
Ltac b32_values :=
  repeat match goal with
  | |- context [Binary32.value ?x] =>
      let v := eval vm_compute in (Binary32.value x) in
      change (Binary32.value x) with v
  end.

(** The decade factor agrees with the decade index, as [setFrequencyFactor]
    stores them. *)
Definition factor_consistent {F} (fi : FrequencyInfoStruct F) : Prop :=
  0 <= FrequencyFactorIndex fi <= 255 /\
  FrequencyFactorTimes1000 fi = factor_loop (Z.to_nat (FrequencyFactorIndex fi)) 1.

(** ** General lemmas on the embedding *)

Section Generic.

Context {F : Type} `{Float32 F}.

Lemma setWaveformFrequency_eq (pf : Platform) (g : Globals F) :
  setWaveformFrequency pf g =
  if Waveform (sFrequencyInfo g) =? WAVEFORM_SQUARE then
    let '(hasError, call, v) := square_reload pf (sFrequencyInfo g) in
    Some (hasError, mkGlobals F (with_DividerInt v (sFrequencyInfo g))
                      (is10HzRange g) (call :: timerCalls g) (display g))
  else Some (true, g).
Proof.
  unfold setWaveformFrequency, bind, get, ret.
  destruct (Waveform (sFrequencyInfo g) =? WAVEFORM_SQUARE); [|reflexivity].
  destruct (square_reload pf (sFrequencyInfo g)) as [[h c] v]; reflexivity.
Qed.

Lemma clipped_ticks_range (fi : FrequencyInfoStruct F) :
  2 <= clipped_ticks fi <= u32_max.
Proof.
  unfold clipped_ticks. pose proof (f_to_u32_range (tPeriod fi)).
  destruct (f_to_u32 (tPeriod fi) <? 2) eqn:E;
    [|apply Z.ltb_ge in E]; unfold u32_max in *; lia.
Qed.

Lemma square_reload_16 (fi : FrequencyInfoStruct F) :
  square_reload Timer16Platform fi =
  (f_to_u32 (tPeriod fi) <? 2,
   Synth_Timer16_SetReloadValue
     (if 1 <? Z.shiftr (clipped_ticks fi) 16 + 1
      then clipped_ticks fi / (Z.shiftr (clipped_ticks fi) 16 + 1)
      else clipped_ticks fi)
     (Z.shiftr (clipped_ticks fi) 16 + 1),
   ((if 1 <? Z.shiftr (clipped_ticks fi) 16 + 1
     then clipped_ticks fi / (Z.shiftr (clipped_ticks fi) 16 + 1)
     else clipped_ticks fi) * (Z.shiftr (clipped_ticks fi) 16 + 1))
     mod 2 ^ 32).
Proof. reflexivity. Qed.

(** The reload and prescaler computed on the 16 bit platform from a tick
    count [t] with [2 <= t <= u32_max]. *)
Lemma prescaler_split (t : Z) :
  2 <= t <= u32_max ->
  let p := Z.shiftr t 16 + 1 in
  let r := if 1 <? p then t / p else t in
  1 <= p <= 65536 /\ r = t / p /\ 2 <= r < 65536 /\ r * p <= t.
Proof.
  intros Ht p r. unfold u32_max in Ht.
  assert (Hs : Z.shiftr t 16 = t / 65536)
    by (rewrite Z.shiftr_div_pow2 by lia; reflexivity).
  assert (Hq : 0 <= t / 65536 <= 65535).
  { split; [apply Z.div_pos; lia|].
    assert (t / 65536 < 65536) by (apply Z.div_lt_upper_bound; lia). lia. }
  pose proof (Z.div_mod t 65536 ltac:(lia)) as Hd.
  pose proof (Z.mod_pos_bound t 65536 ltac:(lia)) as Hm.
  subst p r. rewrite Hs.
  destruct (1 <? t / 65536 + 1) eqn:E.
  - apply Z.ltb_lt in E.
    set (s := t / 65536) in *.
    assert (Hlo : 2 <= t / (s + 1)).
    { apply Z.div_le_lower_bound; lia. }
    assert (Hhi : t / (s + 1) < 65536).
    { apply Z.div_lt_upper_bound; lia. }
    pose proof (Z.mul_div_le t (s + 1) ltac:(lia)).
    repeat split; try lia.
  - apply Z.ltb_ge in E.
    assert (t / 65536 = 0) by lia.
    rewrite H0 in *. rewrite Z.add_0_l, Z.div_1_r.
    repeat split; lia.
Qed.

End Generic.



(** ** Translator, 32 bit platform *)

(** Supporting fact: the tick count is the truncation of a single precision
    quotient; at 10 mHz the exact count 3 600 000 000 fits in 32 bits, but
    the reload is 3 599 999 744. *)
Lemma translate32_10mHz_single_precision :
  exists g', setWaveformFrequency STM32F30X (square_globals 10 0)
             = Some (false, g')
          /\ DividerInt (sFrequencyInfo g') = 3599999744
          /\ Z.quot (Z.quot TIMER_CLOCK_TIMES_1000 1) 10 = 3600000000.
Proof. eexists; split; [vm_compute; reflexivity | split; reflexivity]. Qed.




(** C2: at 1 mHz (target 1, decade index 0) the tick count
    36 000 000 000 exceeds the 32 bit reload; the reload saturates at
    0xFFFFFFFF but [setWaveformFrequency] returns [false] (not clipped). *)
Theorem translate32_1mHz_not_flagged :
  exists g', setWaveformFrequency STM32F30X (square_globals 1 0)
             = Some (false, g')
          /\ DividerInt (sFrequencyInfo g') = u32_max.
Proof. eexists; split; [vm_compute; reflexivity | reflexivity]. Qed.

(** C6: on the 32 bit platform, with a waveform other than SQUARE,
    [setWaveformFrequency] returns [true] and leaves the whole state
    unchanged: same reload, no driver call. *)
Theorem translate32_non_square_unchanged {F} `{Float32 F} (g : Globals F) :
  Waveform (sFrequencyInfo g) <> WAVEFORM_SQUARE ->
  setWaveformFrequency STM32F30X g = Some (true, g).
Proof.
  intros Hw. rewrite setWaveformFrequency_eq.
  apply Z.eqb_neq in Hw. rewrite Hw. reflexivity.
Qed.

Lemma translate32_non_square_unchanged_witness :
  Waveform (sFrequencyInfo (mkGlobals spec_float
     (mkFrequencyInfo spec_float 18000 0 (Binary32.of_Z 2000) 1000 1
        WAVEFORM_SINE true) false [] [])) <> WAVEFORM_SQUARE /\
  setWaveformFrequency STM32F30X (mkGlobals spec_float
     (mkFrequencyInfo spec_float 18000 0 (Binary32.of_Z 2000) 1000 1
        WAVEFORM_SINE true) false [] [])
  = Some (true, mkGlobals spec_float
     (mkFrequencyInfo spec_float 18000 0 (Binary32.of_Z 2000) 1000 1
        WAVEFORM_SINE true) false [] []).
Proof.
  split; [discriminate|]. apply translate32_non_square_unchanged.
  discriminate.
Defined.

(** ** [setFrequency] and the numeric entry *)

Section GenericSet.

Context {F : Type} `{Float32 F}.

Lemma setWaveformFrequency_keeps (pf : Platform) (g : Globals F) :
  exists b g', setWaveformFrequency pf g = Some (b, g') /\
    Frequency (sFrequencyInfo g') = Frequency (sFrequencyInfo g) /\
    FrequencyFactorIndex (sFrequencyInfo g') = FrequencyFactorIndex (sFrequencyInfo g) /\
    FrequencyFactorTimes1000 (sFrequencyInfo g')
      = FrequencyFactorTimes1000 (sFrequencyInfo g) /\
    Waveform (sFrequencyInfo g') = Waveform (sFrequencyInfo g) /\
    is10HzRange g' = is10HzRange g.
Proof.
  rewrite setWaveformFrequency_eq.
  destruct (Waveform (sFrequencyInfo g) =? WAVEFORM_SQUARE).
  - destruct (square_reload pf (sFrequencyInfo g)) as [[h c] v].
    do 2 eexists; split; [reflexivity|]. simpl. auto.
  - do 2 eexists; split; [reflexivity|]. auto.
Qed.

(** [setFrequency] stores the normalised value and decade, then
    translates. *)
Lemma setFrequency_square (pf : Platform) (g : Globals F) (v v' : F)
    (idx : Z) :
  Waveform (sFrequencyInfo g) = WAVEFORM_SQUARE ->
  normalize v = Some (v', idx) ->
  exists g', run (setFrequency pf v) g = Some g' /\
    Frequency (sFrequencyInfo g') = v' /\
    FrequencyFactorIndex (sFrequencyInfo g') = idx mod 256 /\
    FrequencyFactorTimes1000 (sFrequencyInfo g') = factor_loop (Z.to_nat idx) 1 /\
    Waveform (sFrequencyInfo g') = WAVEFORM_SQUARE.
Proof.
  intros Hw Hn. unfold run, setFrequency, bind, get, ret.
  rewrite Hw, Z.eqb_refl, Hn. unfold setFrequencyFactor, modify_info.
  match goal with |- context [setWaveformFrequency pf ?g1] =>
    destruct (setWaveformFrequency_keeps pf g1) as (b & g' & E & H1 & H2 & H3 & H4 & _)
  end.
  rewrite E. exists g'. simpl in *. rewrite H1, H2, H3, H4. auto.
Qed.

Lemma setFrequency_other (pf : Platform) (g : Globals F) (v : F) :
  Waveform (sFrequencyInfo g) <> WAVEFORM_SQUARE ->
  exists g', run (setFrequency pf v) g = Some g' /\
    Frequency (sFrequencyInfo g') = v /\
    FrequencyFactorIndex (sFrequencyInfo g') = FrequencyFactorIndex (sFrequencyInfo g) /\
    FrequencyFactorTimes1000 (sFrequencyInfo g')
      = FrequencyFactorTimes1000 (sFrequencyInfo g).
Proof.
  intros Hw. apply Z.eqb_neq in Hw. unfold run, setFrequency, bind, get, ret.
  rewrite Hw. unfold modify_info.
  match goal with |- context [setWaveformFrequency pf ?g1] =>
    destruct (setWaveformFrequency_keeps pf g1) as (b & g' & E & H1 & H2 & H3 & _)
  end.
  rewrite E. exists g'. simpl in *. rewrite H1, H2, H3. auto.
Qed.


Lemma normalize_below_one (v : F) :
  f_gtb v (f_of_Z 1000) = false -> f_ltb v (f_of_Z 1) = true ->
  normalize v = Some (f_mul v (f_of_Z 1000), 0).
Proof. intros H1 H2. unfold normalize. simpl. rewrite H1, H2. reflexivity. Qed.

Lemma normalize_one_step (v : F) :
  f_gtb v (f_of_Z 1000) = true ->
  f_gtb (f_div v (f_of_Z 1000)) (f_of_Z 1000) = false ->
  f_ltb (f_div v (f_of_Z 1000)) (f_of_Z 1) = false ->
  normalize v = Some (f_div v (f_of_Z 1000), 2).
Proof.
  intros H1 H2 H3. unfold normalize. simpl. rewrite H1, H2, H3. reflexivity.
Qed.

Lemma normalize_loop_iter (k fuel : nat) (v : F) (t : Z) :
  (k <= fuel)%nat -> 0 <= t -> t + Z.of_nat k <= 255 ->
  (forall j, (j < k)%nat -> f_gtb (div1000_iter j v) (f_of_Z 1000) = true) ->
  f_gtb (div1000_iter k v) (f_of_Z 1000) = false ->
  normalize_loop fuel v t = Some (div1000_iter k v, t + Z.of_nat k).
Proof.
  revert fuel v t. induction k as [|k IH]; intros fuel v t Hk Ht Hs Hgt Hstop.
  - simpl in Hstop |- *. destruct fuel; simpl; rewrite Hstop, Z.add_0_r; reflexivity.
  - destruct fuel as [|fuel]; [lia|].
    simpl. rewrite (Hgt O ltac:(lia) : f_gtb v (f_of_Z 1000) = true).
    rewrite Z.mod_small by lia.
    rewrite (IH fuel (f_div v (f_of_Z 1000)) (t + 1)); [| lia | lia | lia | |].
    + f_equal. f_equal. lia.
    + intros j Hj. exact (Hgt (S j) ltac:(lia)).
    + exact Hstop.
Qed.

End GenericSet.

(** C3 (counterexample): [setFrequency(1000)] with a square wave keeps the
    value 1000 in the Hz decade (index 1); the loop condition is
    [aValue > 1000]. *)
Lemma setFrequency_1000_stays_Hz :
  match run (setFrequency STM32F30X (Binary32.of_Z 1000)) (square_globals 200 1)
  with
  | Some g' => Frequency (sFrequencyInfo g') = Binary32.of_Z 1000 /\
               Frequency (sFrequencyInfo g') <> Binary32.of_Z 1 /\
               FrequencyFactorIndex (sFrequencyInfo g') = 1
  | None => False
  end.
Proof. vm_compute. split; [reflexivity | split; [discriminate | reflexivity]]. Qed.

(** C3 (amended): with the square waveform, [setFrequency(f)] starts in
    the Hz decade (index 1) and divides by 1000 while [f > 1000] (strictly),
    advancing the index; then, if [f < 1], it multiplies by 1000 once and
    sets the index to 0 (mHz); the value reached is stored.  For any number
    [k] of passes of the loop (up to the fuel of the embedding): the stored value is
    the [k]-th quotient, in decade [1 + k] with the factor
    [setFrequencyFactor] computes for it, or that quotient times 1000 in
    the mHz decade if it is below 1.  With another waveform the value is
    stored as given and the decade is unchanged. *)
Theorem setFrequency_decades {F} `{Float32 F} (pf : Platform) (g : Globals F)
    (v : F) (k : nat) :
  (Waveform (sFrequencyInfo g) = WAVEFORM_SQUARE ->
   (k <= loop_fuel)%nat ->
   (forall j, (j < k)%nat -> f_gtb (div1000_iter j v) (f_of_Z 1000) = true) ->
   f_gtb (div1000_iter k v) (f_of_Z 1000) = false ->
   exists g', run (setFrequency pf v) g = Some g' /\
     (f_ltb (div1000_iter k v) (f_of_Z 1) = false ->
        Frequency (sFrequencyInfo g') = div1000_iter k v /\
        FrequencyFactorIndex (sFrequencyInfo g') = 1 + Z.of_nat k /\
        FrequencyFactorTimes1000 (sFrequencyInfo g') = factor_loop (S k) 1) /\
     (f_ltb (div1000_iter k v) (f_of_Z 1) = true ->
        Frequency (sFrequencyInfo g') = f_mul (div1000_iter k v) (f_of_Z 1000) /\
        FrequencyFactorIndex (sFrequencyInfo g') = 0 /\
        FrequencyFactorTimes1000 (sFrequencyInfo g') = 1)) /\
  (Waveform (sFrequencyInfo g) <> WAVEFORM_SQUARE ->
   exists g', run (setFrequency pf v) g = Some g' /\
     Frequency (sFrequencyInfo g') = v /\
     FrequencyFactorIndex (sFrequencyInfo g') = FrequencyFactorIndex (sFrequencyInfo g) /\
     FrequencyFactorTimes1000 (sFrequencyInfo g')
       = FrequencyFactorTimes1000 (sFrequencyInfo g)).
Proof.
  split; [|apply setFrequency_other].
  intros Hw Hk Hgt Hstop.
  assert (Hl : normalize_loop loop_fuel v 1 = Some (div1000_iter k v, 1 + Z.of_nat k))
    by (apply normalize_loop_iter; unfold loop_fuel in *; auto; lia).
  destruct (f_ltb (div1000_iter k v) (f_of_Z 1)) eqn:Elt.
  - assert (Hn : normalize v = Some (f_mul (div1000_iter k v) (f_of_Z 1000), 0))
      by (unfold normalize; rewrite Hl, Elt; reflexivity).
    destruct (setFrequency_square pf g v _ _ Hw Hn) as (g' & E & A & B & C & _).
    exists g'. split; [exact E|]. split; [discriminate|].
    intros _. rewrite A, B, C. auto.
  - assert (Hn : normalize v = Some (div1000_iter k v, 1 + Z.of_nat k))
      by (unfold normalize; rewrite Hl, Elt; reflexivity).
    destruct (setFrequency_square pf g v _ _ Hw Hn) as (g' & E & A & B & C & _).
    exists g'. split; [exact E|]. split; [|discriminate].
    intros _. rewrite A, B, C, Z.mod_small by (unfold loop_fuel in *; lia).
    split; [reflexivity|]. split; [reflexivity|]. f_equal. lia.
Qed.

Lemma setFrequency_decades_witness :
  Waveform (sFrequencyInfo (square_globals 200 1)) = WAVEFORM_SQUARE /\
  (2 <= loop_fuel)%nat /\
  (forall j, (j < 2)%nat ->
     f_gtb (div1000_iter j (Binary32.of_Z 2000000)) (f_of_Z 1000) = true) /\
  f_gtb (div1000_iter 2 (Binary32.of_Z 2000000)) (f_of_Z 1000) = false /\
  exists g', run (setFrequency STM32F30X (Binary32.of_Z 2000000)) (square_globals 200 1)
             = Some g' /\
    Frequency (sFrequencyInfo g') = Binary32.of_Z 2 /\
    FrequencyFactorIndex (sFrequencyInfo g') = 3 /\
    FrequencyFactorTimes1000 (sFrequencyInfo g') = 1000000000.
Proof.
  assert (Hgt : forall j, (j < 2)%nat ->
     f_gtb (div1000_iter j (Binary32.of_Z 2000000)) (f_of_Z 1000) = true).
  { intros j Hj. destruct j as [|[|j]]; [vm_compute; reflexivity
      | vm_compute; reflexivity | lia]. }
  assert (Hstop : f_gtb (div1000_iter 2 (Binary32.of_Z 2000000)) (f_of_Z 1000) = false)
    by (vm_compute; reflexivity).
  split; [reflexivity|]. split; [unfold loop_fuel; lia|].
  split; [exact Hgt|]. split; [exact Hstop|].
  destruct (setFrequency_decades STM32F30X (square_globals 200 1)
              (Binary32.of_Z 2000000) 2) as [H1 _].
  destruct (H1 eq_refl ltac:(unfold loop_fuel; lia) Hgt Hstop) as (g' & E & Hge & _).
  destruct (Hge ltac:(vm_compute; reflexivity)) as (A & B & C).
  exists g'. split; [exact E|]. rewrite A, B, C.
  split; [vm_compute; reflexivity|]. split; reflexivity.
Defined.

(** ** Translator, 16 bit platform *)

Section Generic16.

Context {F : Type} `{Float32 F}.

Lemma clipped_ticks_with_DividerInt (v : Z) (fi : FrequencyInfoStruct F) :
  clipped_ticks (with_DividerInt v fi) = clipped_ticks fi.
Proof. destruct fi; reflexivity. Qed.

(** [setFrequency] ends with [setWaveformFrequency] on a state with the
    same waveform and the same driver calls. *)
Lemma setFrequency_translates (pf : Platform) (v : F) (g g' : Globals F) :
  run (setFrequency pf v) g = Some g' ->
  exists g1 b, Waveform (sFrequencyInfo g1) = Waveform (sFrequencyInfo g) /\
    timerCalls g1 = timerCalls g /\ setWaveformFrequency pf g1 = Some (b, g').
Proof.
  unfold run, setFrequency, bind, get, ret, setFrequencyFactor, modify_info.
  destruct (Waveform (sFrequencyInfo g) =? WAVEFORM_SQUARE) eqn:Ew.
  - destruct (normalize v) as [[v' i]|]; [|discriminate].
    match goal with |- context [setWaveformFrequency pf ?g1] =>
      destruct (setWaveformFrequency pf g1) as [[b g2]|] eqn:E; [|discriminate];
      intros Hs; injection Hs as <-; exists g1, b
    end.
    destruct g as [[] ? ? ?]; auto.
  - match goal with |- context [setWaveformFrequency pf ?g1] =>
      destruct (setWaveformFrequency pf g1) as [[b g2]|] eqn:E; [|discriminate];
      intros Hs; injection Hs as <-; exists g1, b
    end.
    destruct g as [[] ? ? ?]; auto.
Qed.

(** The square wave translation on the 16 bit platform. *)
Lemma setWaveformFrequency_16 (g g' : Globals F) (b : bool) :
  Waveform (sFrequencyInfo g) = WAVEFORM_SQUARE ->
  setWaveformFrequency Timer16Platform g = Some (b, g') ->
  let t := clipped_ticks (sFrequencyInfo g') in
  let p := Z.shiftr t 16 + 1 in
  let r := if 1 <? p then t / p else t in
  clipped_ticks (sFrequencyInfo g') = clipped_ticks (sFrequencyInfo g) /\
  timerCalls g' = Synth_Timer16_SetReloadValue r p :: timerCalls g /\
  DividerInt (sFrequencyInfo g') = (r * p) mod 2 ^ 32.
Proof.
  intros Hw E. rewrite setWaveformFrequency_eq, Hw, Z.eqb_refl,
    square_reload_16 in E.
  injection E as _ <-. cbn [sFrequencyInfo timerCalls].
  rewrite clipped_ticks_with_DividerInt. destruct (sFrequencyInfo g); auto.
Qed.

End Generic16.

(** C4: on the 16 bit platform, after [setFrequency] with a square wave
    (any target for which the call returns), the driver receives
    [Synth_Timer16_SetReloadValue reload prescaler] with
    [prescaler = (ticks >> 16) + 1 >= 1], [reload = ticks / prescaler] when
    [prescaler > 1] (else [ticks]), and [2 <= reload < 65536]; [ticks] is the
    clipped tick count. *)
Theorem translate16_reload_bounds {F} `{Float32 F} (aValue : F)
    (g g' : Globals F) :
  Waveform (sFrequencyInfo g) = WAVEFORM_SQUARE ->
  run (setFrequency Timer16Platform aValue) g = Some g' ->
  exists reload prescaler,
    timerCalls g' = Synth_Timer16_SetReloadValue reload prescaler :: timerCalls g /\
    prescaler = Z.shiftr (clipped_ticks (sFrequencyInfo g')) 16 + 1 /\
    reload = (if 1 <? prescaler then clipped_ticks (sFrequencyInfo g') / prescaler
              else clipped_ticks (sFrequencyInfo g')) /\
    1 <= prescaler /\ 2 <= reload < 65536.
Proof.
  intros Hw Hr.
  destruct (setFrequency_translates _ _ _ _ Hr) as (g1 & b & Hw1 & Hc & E).
  rewrite <- Hw1 in Hw.
  destruct (setWaveformFrequency_16 g1 g' b Hw E) as (_ & Hcall & _).
  rewrite Hc in Hcall. do 2 eexists. split; [exact Hcall|].
  destruct (prescaler_split (clipped_ticks (sFrequencyInfo g'))
              (clipped_ticks_range _)) as (Hp & _ & Hr' & _).
  split; [reflexivity|]. split; [reflexivity|]. lia.
Qed.

Lemma translate16_reload_bounds_witness :
  Waveform (sFrequencyInfo (square_globals 200 1)) = WAVEFORM_SQUARE /\
  exists g', run (setFrequency Timer16Platform (Binary32.of_Z 18))
               (square_globals 200 1) = Some g' /\
  exists reload prescaler,
    timerCalls g' = [Synth_Timer16_SetReloadValue reload prescaler] /\
    1 <= prescaler /\ 2 <= reload < 65536.
Proof.
  split; [reflexivity|].
  destruct (run (setFrequency Timer16Platform (Binary32.of_Z 18))
              (square_globals 200 1)) as [g'|] eqn:E;
    [|vm_compute in E; discriminate].
  exists g'. split; [reflexivity|].
  destruct (translate16_reload_bounds (Binary32.of_Z 18) (square_globals 200 1) g'
              eq_refl E)
    as (r & p & Hc & _ & _ & Hp & Hr).
  exists r, p. split; [exact Hc | split; assumption].
Defined.

(** C5 (counterexample): at 18 Hz the 16 bit translation passes the
    prescaler 31 to the driver, which is not one of 1, 8, 64, 256, 1024. *)
Lemma translate16_18Hz_prescaler_31 :
  match setWaveformFrequency Timer16Platform (square_globals 18 1) with
  | Some (_, g') =>
      match timerCalls g' with
      | Synth_Timer16_SetReloadValue r p :: _ =>
          r = 64516 /\ p = 31 /\ ~ In p [1; 8; 64; 256; 1024]
      | _ => False
      end
  | None => False
  end.
Proof. vm_compute. split; [reflexivity | split; [reflexivity | simpl; lia]]. Qed.

(** C5 (amended): on the 16 bit platform every square wave translation
    passes to the driver the prescaler [p = (ticks >> 16) + 1], an integer in
    [1, 65536] with no mapping to a fixed selector set, and the reload
    [r = ticks / p]; the stored period [DividerInt] is [r * p], with
    [ticks - p < r * p <= ticks]. *)
Theorem translate16_prescaler_continuous {F} `{Float32 F} (g g' : Globals F)
    (b : bool) :
  Waveform (sFrequencyInfo g) = WAVEFORM_SQUARE ->
  setWaveformFrequency Timer16Platform g = Some (b, g') ->
  let t := clipped_ticks (sFrequencyInfo g) in
  exists r p,
    timerCalls g' = Synth_Timer16_SetReloadValue r p :: timerCalls g /\
    p = Z.shiftr t 16 + 1 /\ 1 <= p <= 65536 /\ r = t / p /\
    DividerInt (sFrequencyInfo g') = r * p /\ t - p < r * p <= t.
Proof.
  intros Hw E t.
  destruct (setWaveformFrequency_16 g g' b Hw E) as (Ht & Hc & Hd).
  rewrite Ht in Hc, Hd. fold t in Hc, Hd.
  pose proof (clipped_ticks_range (sFrequencyInfo g)) as Hrange. fold t in Hrange.
  destruct (prescaler_split t Hrange) as (Hp & Hq & Hr & Hle).
  do 2 eexists. split; [exact Hc|]. split; [reflexivity|]. split; [exact Hp|].
  split; [exact Hq|]. rewrite Hq in *.
  pose proof (Z.div_mod t (Z.shiftr t 16 + 1) ltac:(lia)).
  pose proof (Z.mod_pos_bound t (Z.shiftr t 16 + 1) ltac:(lia)).
  split; [rewrite Hd; apply Z.mod_small; unfold u32_max in *; lia | lia].
Qed.

Lemma translate16_prescaler_continuous_witness :
  Waveform (sFrequencyInfo (square_globals 18 1)) = WAVEFORM_SQUARE /\
  exists b g', setWaveformFrequency Timer16Platform (square_globals 18 1)
                 = Some (b, g') /\
  exists r p,
    timerCalls g' = [Synth_Timer16_SetReloadValue r p] /\
    1 <= p <= 65536 /\ DividerInt (sFrequencyInfo g') = r * p.
Proof.
  split; [reflexivity|].
  destruct (setWaveformFrequency Timer16Platform (square_globals 18 1))
    as [[b g']|] eqn:E; [|vm_compute in E; discriminate].
  exists b, g'. split; [reflexivity|].
  destruct (translate16_prescaler_continuous (square_globals 18 1) g' b
              eq_refl E)
    as (r & p & Hc & _ & Hp & _ & Hd & _).
  exists r, p. auto.
Defined.

(** ** Numeric entry *)

Section GenericEntry.

Context {F : Type} `{Float32 F} `{Libm F}.

Lemma printFrequencyAndPeriod_keeps (g : Globals F) :
  exists g', printFrequencyAndPeriod g = Some (tt, g') /\
    sFrequencyInfo g' = sFrequencyInfo g /\ is10HzRange g' = is10HzRange g /\
    timerCalls g' = timerCalls g /\
    exists rest, display g' =
      SetSliderValue (slider_value (is10HzRange g) (Frequency (sFrequencyInfo g)))
      :: rest.
Proof.
  unfold printFrequencyAndPeriod, bind, get, draw, ret.
  destruct (f_gtb _ _); eexists; (split; [reflexivity|]); simpl; eauto 6.
Qed.

Lemma doSetFrequency_run (pf : Platform) (v : F) (g g1 : Globals F) :
  run (setFrequency pf v) g = Some g1 ->
  exists g', run (doSetFrequency pf v) g = Some g' /\
    sFrequencyInfo g' = sFrequencyInfo g1 /\ timerCalls g' = timerCalls g1 /\
    is10HzRange g' = is10HzRange g1 /\
    exists rest, display g' =
      SetSliderValue (slider_value (is10HzRange g1) (Frequency (sFrequencyInfo g1)))
      :: rest.
Proof.
  unfold run, doSetFrequency, bind.
  destruct (setFrequency pf v g) as [[[] g1']|]; intros E; [|discriminate].
  injection E as <-.
  destruct (printFrequencyAndPeriod_keeps g1') as (g' & E & Hi & H10 & Hc & Hd).
  rewrite E. eauto 6.
Qed.



(** With a square wave, [setFrequency] programs the driver once. *)
Lemma setFrequency_square_call (pf : Platform) (v : F) (g g' : Globals F) :
  Waveform (sFrequencyInfo g) = WAVEFORM_SQUARE ->
  run (setFrequency pf v) g = Some g' ->
  exists c, timerCalls g' = c :: timerCalls g.
Proof.
  intros Hw Hr.
  destruct (setFrequency_translates _ _ _ _ Hr) as (g1 & b & Hw1 & Hc & E).
  rewrite setWaveformFrequency_eq, Hw1, Hw, Z.eqb_refl in E.
  destruct (square_reload pf (sFrequencyInfo g1)) as [[h c] d].
  injection E as _ <-. exists c. simpl. rewrite Hc. reflexivity.
Qed.

End GenericEntry.

Section GenericHandlers.

Context {F : Type} `{Float32 F} `{Libm F}.

Lemma with_DividerInt_fields (d : Z) (fi : FrequencyInfoStruct F) :
  Frequency (with_DividerInt d fi) = Frequency fi /\
  FrequencyFactorIndex (with_DividerInt d fi) = FrequencyFactorIndex fi /\
  FrequencyFactorTimes1000 (with_DividerInt d fi) = FrequencyFactorTimes1000 fi /\
  Waveform (with_DividerInt d fi) = Waveform fi /\
  isOutputEnabled (with_DividerInt d fi) = isOutputEnabled fi /\
  DividerInt (with_DividerInt d fi) = d.
Proof. destruct fi; repeat split. Qed.

(** [SetWaveformFrequencyAndPrintValues]: the translation, then the three
    outputs of [printFrequencyAndPeriod]. *)
Lemma SetWaveformFrequencyAndPrintValues_run (pf : Platform) (g : Globals F) :
  exists b g', SetWaveformFrequencyAndPrintValues pf g = Some (b, g') /\
    b = (if Waveform (sFrequencyInfo g) =? WAVEFORM_SQUARE
         then fst (fst (square_reload pf (sFrequencyInfo g))) else true) /\
    (exists d, sFrequencyInfo g' = with_DividerInt d (sFrequencyInfo g)) /\
    is10HzRange g' = is10HzRange g /\
    (Waveform (sFrequencyInfo g) = WAVEFORM_SQUARE ->
     timerCalls g' = snd (fst (square_reload pf (sFrequencyInfo g))) :: timerCalls g) /\
    (Waveform (sFrequencyInfo g) <> WAVEFORM_SQUARE -> timerCalls g' = timerCalls g) /\
    exists rest, display g' =
      SetSliderValue (slider_value (is10HzRange g) (Frequency (sFrequencyInfo g)))
      :: rest.
Proof.
  unfold SetWaveformFrequencyAndPrintValues, bind, ret.
  rewrite setWaveformFrequency_eq.
  destruct (Waveform (sFrequencyInfo g) =? WAVEFORM_SQUARE) eqn:Ew.
  - apply Z.eqb_eq in Ew.
    destruct (square_reload pf (sFrequencyInfo g)) as [[h c] v].
    match goal with |- context [printFrequencyAndPeriod ?g1] =>
      destruct (printFrequencyAndPeriod_keeps g1) as (g' & E & Hi & H10 & Hc & Hd)
    end.
    rewrite E. do 2 eexists. split; [reflexivity|]. simpl in *.
    split; [reflexivity|]. split; [eauto|]. split; [auto|].
    split; [auto|]. split; [intros; contradiction|].
    destruct Hd as [rest Hd]. exists rest. rewrite Hd. simpl.
    destruct (sFrequencyInfo g); reflexivity.
  - apply Z.eqb_neq in Ew.
    destruct (printFrequencyAndPeriod_keeps g) as (g' & E & Hi & H10 & Hc & Hd).
    rewrite E. do 2 eexists. split; [reflexivity|].
    split; [reflexivity|]. split.
    + exists (DividerInt (sFrequencyInfo g)). rewrite Hi.
      destruct (sFrequencyInfo g); reflexivity.
    + split; [auto|]. split; [intros; contradiction|]. split; auto.
Qed.

(** [doChangeFrequencyRange]: touching the active range button does
    nothing.  Touching another range button [aValue] (0 mHz, 1 Hz, 2 10 Hz,
    3 kHz, 4 MHz) makes it active, sets [is10HzRange] exactly for the 10 Hz
    button, selects the decade [aValue] (the 10 Hz button and the buttons
    after it one less) with the factor [1000^decade], keeps the stored
    frequency, translates it again and redraws the slider for the new
    range. *)
Theorem doChangeFrequencyRange_effect (pf : Platform) (aActive aValue : Z)
    (g : Globals F) :
  0 <= aValue <= 4 ->
  exists a g', doChangeFrequencyRange pf aActive aValue g = Some (a, g') /\
    (aActive = aValue -> a = aActive /\ g' = g) /\
    (aActive <> aValue ->
      let idx := if INDEX_OF_10HZ <=? aValue then aValue - 1 else aValue in
      a = aValue /\ is10HzRange g' = (aValue =? INDEX_OF_10HZ) /\
      FrequencyFactorIndex (sFrequencyInfo g') = idx /\
      FrequencyFactorTimes1000 (sFrequencyInfo g') = 1000 ^ idx /\
      Frequency (sFrequencyInfo g') = Frequency (sFrequencyInfo g) /\
      Waveform (sFrequencyInfo g') = Waveform (sFrequencyInfo g) /\
      exists rest, display g' =
        SetSliderValue (slider_value (aValue =? INDEX_OF_10HZ)
                          (Frequency (sFrequencyInfo g))) :: rest).
Proof.
  intros Hv. unfold doChangeFrequencyRange.
  destruct (aActive =? aValue) eqn:Ea; cbv [negb]; cbv beta iota.
  - apply Z.eqb_eq in Ea. do 2 eexists. split; [reflexivity|].
    split; [auto|]. intros; contradiction.
  - apply Z.eqb_neq in Ea.
    unfold bind, set_is10HzRange, setFrequencyFactor, modify_info, ret.
    cbv beta iota.
    match goal with |- context [SetWaveformFrequencyAndPrintValues pf ?g1] =>
      destruct (SetWaveformFrequencyAndPrintValues_run pf g1)
        as (b & g' & E & _ & [d Hd] & H10 & _ & _ & Hdisp)
    end.
    rewrite E. do 2 eexists. split; [reflexivity|].
    split; [intros; contradiction|]. intros _. cbv zeta.
    rewrite Hd, H10. simpl in Hdisp |- *.
    destruct (sFrequencyInfo g).
    assert (aValue = 0 \/ aValue = 1 \/ aValue = 2 \/ aValue = 3 \/ aValue = 4)
      as [-> | [-> | [-> | [-> | ->]]]] by lia;
      cbn in Hdisp |- *; repeat split; assumption.
Qed.

(** [doFrequencyGeneratorStartStop]: [isOutputEnabled] becomes
    [aValue <> 0]; the frequency and its decade are kept.  Stopping only
    calls [Synth_Timer_Stop]: the reload and the display are untouched.
    Starting calls [Synth_Timer_Start] before the translation, which with a
    square wave programs the reload once more. *)
Theorem doFrequencyGeneratorStartStop_effect (pf : Platform) (aValue : Z)
    (g : Globals F) :
  exists g', run (doFrequencyGeneratorStartStop pf aValue) g = Some g' /\
    isOutputEnabled (sFrequencyInfo g') = negb (aValue =? 0) /\
    Frequency (sFrequencyInfo g') = Frequency (sFrequencyInfo g) /\
    FrequencyFactorIndex (sFrequencyInfo g') = FrequencyFactorIndex (sFrequencyInfo g) /\
    FrequencyFactorTimes1000 (sFrequencyInfo g')
      = FrequencyFactorTimes1000 (sFrequencyInfo g) /\
    is10HzRange g' = is10HzRange g /\
    (aValue = 0 ->
       timerCalls g' = Synth_Timer_Stop :: timerCalls g /\
       DividerInt (sFrequencyInfo g') = DividerInt (sFrequencyInfo g) /\
       display g' = display g) /\
    (aValue <> 0 ->
       (Waveform (sFrequencyInfo g) = WAVEFORM_SQUARE ->
          exists c, timerCalls g' = c :: Synth_Timer_Start :: timerCalls g) /\
       (Waveform (sFrequencyInfo g) <> WAVEFORM_SQUARE ->
          timerCalls g' = Synth_Timer_Start :: timerCalls g)).
Proof.
  unfold run, doFrequencyGeneratorStartStop, bind, modify_info.
  destruct (aValue =? 0) eqn:Ea; cbv [negb]; cbv beta iota.
  - apply Z.eqb_eq in Ea. unfold timer_call. eexists. split; [reflexivity|].
    destruct (sFrequencyInfo g); simpl. repeat split; auto.
    all: intros; contradiction.
  - apply Z.eqb_neq in Ea. unfold timer_call, ret. cbv beta iota.
    match goal with |- context [SetWaveformFrequencyAndPrintValues pf ?g1] =>
      destruct (SetWaveformFrequencyAndPrintValues_run pf g1)
        as (b & g' & E & _ & [d Hd] & H10 & Hsq & Hns & _)
    end.
    rewrite E. eexists. split; [reflexivity|]. rewrite Hd, H10.
    simpl in Hsq, Hns |- *.
    destruct (sFrequencyInfo g); simpl in *.
    repeat split; try (intros; contradiction).
    + intros Hw. eexists. apply Hsq. exact Hw.
    + intros Hw. apply Hns. exact Hw.
Qed.

(** [startFrequencyGeneratorPage] prints the values computed from the
    reload stored before it, then translates again and finally calls
    [Synth_Timer_Start], whatever [isOutputEnabled] is (which it keeps). *)
Theorem startFrequencyGeneratorPage_effect (pf : Platform) (g : Globals F) :
  exists g', run (startFrequencyGeneratorPage pf) g = Some g' /\
    isOutputEnabled (sFrequencyInfo g') = isOutputEnabled (sFrequencyInfo g) /\
    (Waveform (sFrequencyInfo g) = WAVEFORM_SQUARE ->
       exists c, timerCalls g' = Synth_Timer_Start :: c :: timerCalls g) /\
    (Waveform (sFrequencyInfo g) <> WAVEFORM_SQUARE ->
       timerCalls g' = Synth_Timer_Start :: timerCalls g) /\
    exists p u, display g' =
      SetSliderValue (slider_value (is10HzRange g) (Frequency (sFrequencyInfo g)))
      :: DrawPeriod p u
      :: DrawFrequency (realized_frequency (sFrequencyInfo g))
           (FrequencyFactorIndex (sFrequencyInfo g))
      :: display g.
Proof.
  unfold run, startFrequencyGeneratorPage, drawFrequencyGeneratorPage,
    printFrequencyAndPeriod, bind, get, draw, timer_call.
  destruct (f_gtb _ _); cbv iota beta;
  rewrite setWaveformFrequency_eq; simpl sFrequencyInfo;
  (destruct (Waveform (sFrequencyInfo g) =? WAVEFORM_SQUARE) eqn:Ew;
   [apply Z.eqb_eq in Ew;
    destruct (square_reload pf (sFrequencyInfo g)) as [[h c] v]
   |apply Z.eqb_neq in Ew]);
  (eexists; split; [reflexivity|]); simpl;
  (split; [destruct (sFrequencyInfo g); reflexivity|]);
  (split; [intros; try contradiction; eexists; reflexivity|]);
  (split; [intros; try contradiction; reflexivity|]);
  do 2 eexists; reflexivity.
Qed.

End GenericHandlers.

Lemma exact_gtb_lt (x y : R) :
  (x <= y)%R -> @f_gtb R exact_ops x y = false.
Proof.
  intros Hxy. simpl. unfold real_gtb. destruct (Rlt_dec y x); [lra|reflexivity].
Qed.


Lemma exact_ltb_lt (x y : R) :
  (x < y)%R -> @f_ltb R exact_ops x y = true.
Proof.
  intros Hxy. simpl. unfold real_ltb. destruct (Rlt_dec x y); [reflexivity|lra].
Qed.

(** C9 (counterexample): in the exact real instance, the numeric entry -5
    on the Hz decade with a square wave is not ignored: the stored target
    becomes -5000 (it was 200) and the decade index becomes 0 (mHz). *)
Lemma doSetFrequency_negative_accepted :
  match run (@doSetFrequency R exact_ops exact_libm STM32F30X (-5)%R)
            (real_square_globals 200 1) with
  | Some g' => Frequency (sFrequencyInfo g') = (-5000)%R /\
               Frequency (sFrequencyInfo (real_square_globals 200 1)) = 200%R /\
               FrequencyFactorIndex (sFrequencyInfo g') = 0 /\
               FrequencyFactorIndex (sFrequencyInfo (real_square_globals 200 1)) = 1
  | None => False
  end.
Proof.
  assert (Hn : @normalize R exact_ops (-5)%R
               = Some (@f_mul R exact_ops (-5)%R (@f_of_Z R exact_ops 1000), 0)).
  { apply normalize_below_one.
    - apply exact_gtb_lt. simpl. lra.
    - apply exact_ltb_lt. simpl. lra. }
  destruct (@setFrequency_square R exact_ops STM32F30X (real_square_globals 200 1)
              _ _ 0 eq_refl Hn) as (g1 & E1 & Hf & Hi & _).
  destruct (@doSetFrequency_run R exact_ops exact_libm STM32F30X _ _ _ E1)
    as (g' & E & Hinfo & _).
  rewrite E, Hinfo, Hf, Hi. simpl. split; [lra|auto].
Qed.

(** C9 (amended): the numeric entry is not validated.  With a square wave,
    a value [v] with [not (v > 1000)] and [v < 1] (every finite [v <= 0] is
    one) is stored as [v * 1000] in the mHz decade (index 0, factor 1) and
    the driver is programmed; with another waveform [v] is stored as is. *)
Theorem doSetFrequency_unvalidated {F} `{Float32 F} `{Libm F} (pf : Platform)
    (g : Globals F) (v : F) :
  (Waveform (sFrequencyInfo g) = WAVEFORM_SQUARE ->
   f_gtb v (f_of_Z 1000) = false -> f_ltb v (f_of_Z 1) = true ->
   exists g', run (doSetFrequency pf v) g = Some g' /\
     Frequency (sFrequencyInfo g') = f_mul v (f_of_Z 1000) /\
     FrequencyFactorIndex (sFrequencyInfo g') = 0 /\
     FrequencyFactorTimes1000 (sFrequencyInfo g') = 1 /\
     exists c, timerCalls g' = c :: timerCalls g) /\
  (Waveform (sFrequencyInfo g) <> WAVEFORM_SQUARE ->
   exists g', run (doSetFrequency pf v) g = Some g' /\
     Frequency (sFrequencyInfo g') = v).
Proof.
  split.
  - intros Hw H1 H2.
    destruct (setFrequency_square pf g v _ 0 Hw (normalize_below_one v H1 H2))
      as (g1 & E1 & Hf & Hi & Hfac & _).
    destruct (setFrequency_square_call pf v g g1 Hw E1) as [c Hc].
    destruct (doSetFrequency_run pf v g g1 E1) as (g' & E & Hinfo & Hc' & _).
    exists g'. rewrite Hinfo, Hc'. split; [exact E|]. split; [exact Hf|].
    split; [exact Hi|]. split; [exact Hfac|]. eauto.
  - intros Hw.
    destruct (setFrequency_other pf g v Hw) as (g1 & E1 & Hf & _).
    destruct (doSetFrequency_run pf v g g1 E1) as (g' & E & Hinfo & _).
    exists g'. rewrite Hinfo. auto.
Qed.

Lemma doSetFrequency_unvalidated_witness :
  Waveform (sFrequencyInfo (real_square_globals 200 1)) = WAVEFORM_SQUARE /\
  @f_gtb R exact_ops (-5)%R (@f_of_Z R exact_ops 1000) = false /\
  @f_ltb R exact_ops (-5)%R (@f_of_Z R exact_ops 1) = true /\
  exists g', run (@doSetFrequency R exact_ops exact_libm STM32F30X (-5)%R)
               (real_square_globals 200 1) = Some g' /\
    FrequencyFactorIndex (sFrequencyInfo g') = 0.
Proof.
  assert (H1 : @f_gtb R exact_ops (-5)%R (@f_of_Z R exact_ops 1000) = false)
    by (apply exact_gtb_lt; simpl; lra).
  assert (H2 : @f_ltb R exact_ops (-5)%R (@f_of_Z R exact_ops 1) = true)
    by (apply exact_ltb_lt; simpl; lra).
  split; [reflexivity|]. split; [exact H1|]. split; [exact H2|].
  destruct (proj1 (@doSetFrequency_unvalidated R exact_ops exact_libm STM32F30X
              (real_square_globals 200 1) (-5)%R) eq_refl H1 H2)
    as (g' & E & _ & Hi & _).
  exists g'. auto.
Defined.

(** ** Quantisation *)

(** C8 (counterexample): a target of 2 in the kHz decade (factor 1 000 000)
    is translated without clipping, reload 18000, and the realized frequency
    recomputed by [printFrequencyAndPeriod] is 2 (kHz, the unit of the
    decade), while [target * factor / 1000 = 2000]: the relative difference
    999 exceeds [1 / 18000]. *)
Lemma quantisation_kHz_units :
  match setWaveformFrequency STM32F30X (square_globals 2 2) with
  | Some (false, g') => DividerInt (sFrequencyInfo g') = 18000 /\
                        ~ spec_P2 (sFrequencyInfo g')
  | _ => False
  end.
Proof.
  destruct (setWaveformFrequency STM32F30X (square_globals 2 2))
    as [[[|] g']|] eqn:E; vm_compute in E; try discriminate.
  injection E as <-. split; [reflexivity|].
  unfold spec_P2, b32_to_R, realized_frequency. cbn [sFrequencyInfo Frequency
    DividerInt FrequencyFactorTimes1000]. b32_values.
  unfold Rabs. destruct (Rcase_abs _); intros Hle; lra.
Qed.

(** Supporting fact for C8: even with the target in the unit of the
    decade, the bound [1 / reload] alone fails by a rounding margin: the
    binary32 target 13801761 * 2^-24 (about 0.8226) in the Hz decade gives
    the reload 43761068. *)
Lemma quantisation_Hz_rounding :
  match setWaveformFrequency STM32F30X
          (set_info (with_Frequency (S754_finite false 13801761 (-24))
                       (sFrequencyInfo (square_globals 1 1)))
                    (square_globals 1 1)) with
  | Some (false, g') => DividerInt (sFrequencyInfo g') = 43761068 /\
                        ~ decade_P2 (sFrequencyInfo g')
  | _ => False
  end.
Proof.
  match goal with |- match ?m with _ => _ end =>
    destruct m as [[[|] g']|] eqn:E end; vm_compute in E; try discriminate.
  injection E as <-. split; [reflexivity|].
  unfold decade_P2, b32_to_R, realized_frequency. cbn [sFrequencyInfo Frequency
    DividerInt FrequencyFactorTimes1000]. b32_values.
  unfold Rabs. destruct (Rcase_abs _); intros Hle; lra.
Qed.

(** ** Quantisation of the square-wave translation *)

Lemma setWaveformFrequency_32_call {F} `{Float32 F} (g g' : Globals F) (b : bool) :
  Waveform (sFrequencyInfo g) = WAVEFORM_SQUARE ->
  setWaveformFrequency STM32F30X g = Some (b, g') ->
  timerCalls g' = Synth_Timer32_SetReloadValue (DividerInt (sFrequencyInfo g'))
                  :: timerCalls g.
Proof.
  intros Hw E. rewrite setWaveformFrequency_eq, Hw, Z.eqb_refl in E.
  unfold square_reload in E.
  apply (f_equal (fun o => match o with Some (_, x) => x | None => g' end)) in E.
  cbv beta iota zeta in E. subst g'. destruct (sFrequencyInfo g); reflexivity.
Qed.

Lemma quant_core (a T x q d b y r s : R) :
  (0 < a -> 0 < T -> x = a / T -> y = a / b -> 2 <= d -> 0 < s <= /2 ->
  (1 - rho) * x <= q <= (1 + rho) * x ->
  (1 - rho) * d <= b <= (1 + rho) * d ->
  (1 - rho) * y <= r <= (1 + rho) * y ->
  d <= q < d * (1 + s) ->
  Rabs (r - T) / T <= s + / 1048576)%R.
Proof.
  intros Ha HT Hx Hy Hd Hs Hq Hb Hr Hqd. unfold rho in *.
  assert (Hbp : (0 < b)%R) by lra.
  set (k := (r / T)%R).
  assert (Hk : k = (r * b / a * (x / b))%R).
  { unfold k. rewrite Hx. field. lra. }
  set (X := (x / b)%R) in *.
  assert (HxX : x = (X * b)%R) by (unfold X; field; lra).
  assert (Hxp : (0 < x)%R) by (rewrite Hx; apply Rdiv_lt_0_compat; lra).
  assert (HXp : (0 < X)%R) by (unfold X; apply Rdiv_lt_0_compat; lra).
  set (Y := (r * b / a)%R) in *.
  assert (HY : (1 - / 8388608 <= Y <= 1 + / 8388608)%R).
  { assert (Hr' : r = (Y * a / b)%R) by (unfold Y; field; lra).
    rewrite Hy in Hr. rewrite Hr' in Hr.
    assert (E : (Y * a / b = Y * (a / b))%R) by (field; lra). rewrite E in Hr.
    assert (0 < a / b)%R by (apply Rdiv_lt_0_compat; lra).
    split; [apply Rmult_le_reg_r with (a / b)%R | apply Rmult_le_reg_r with (a / b)%R];
      lra. }
  assert (HXhi : (X * (1 - / 8388608) * (1 - / 8388608) < 1 + s)%R).
  { assert (X * ((1 - / 8388608) * d) <= X * b)%R by (apply Rmult_le_compat_l; lra).
    apply Rmult_lt_reg_r with d; [lra|]. nra. }
  assert (HXlo : (1 <= X * (1 + / 8388608) * (1 + / 8388608))%R).
  { assert (X * b <= X * ((1 + / 8388608) * d))%R by (apply Rmult_le_compat_l; lra).
    apply Rmult_le_reg_r with d; [lra|]. nra. }
  assert (Ek : (Rabs (r - T) / T = Rabs (k - 1))%R).
  { unfold k. unfold Rdiv at 1. rewrite <- (Rabs_pos_eq (/ T)) by
      (apply Rlt_le, Rinv_0_lt_compat; lra).
    rewrite <- Rabs_mult. f_equal. field. lra. }
  rewrite Ek, Hk. apply Rabs_le. split; nra.
Qed.

Lemma Int_part_bounds (x : R) :
  (IZR (Int_part x) <= x < IZR (Int_part x) + 1)%R.
Proof. destruct (base_Int_part x). lra. Qed.

Lemma Int_part_IZR_eq (x : R) (z : Z) :
  (IZR z <= x < IZR z + 1)%R -> Int_part x = z.
Proof. intros Hx. symmetry. apply Int_part_spec. lra. Qed.

Lemma Rabs_le_bounds (a b : R) : (Rabs a <= b -> - b <= a <= b)%R.
Proof. unfold Rabs. destruct (Rcase_abs a); lra. Qed.

Section Quantisation.

Variable fl : R -> R.
Hypothesis fl_err : forall x, (Rabs x <= b32_big ->
  Rabs (fl x - x) <= b32_eps * Rabs x + b32_eta)%R.
Hypothesis fl_big : forall x, (b32_big <= Rabs x -> b32_big <= Rabs (fl x))%R.

Lemma fl_rel (x : R) :
  (/ 1099511627776 <= x <= b32_big ->
   (1 - rho) * x <= fl x <= (1 + rho) * x)%R.
Proof.
  intros Hx. assert (H := fl_err x).
  rewrite Rabs_pos_eq in H by lra. specialize (H (proj2 Hx)).
  apply Rabs_le_bounds in H. unfold b32_eps, b32_eta, rho, b32_big in *. lra.
Qed.

Lemma quant_bound (N D : Z) (T s : R) :
  8 <= N <= 36000000000 -> 2 <= D <= u32_max -> (0 < s <= / 2)%R ->
  (IZR D <= fl (fl (IZR N) / T) < IZR D * (1 + s))%R ->
  (0 < T /\
   Rabs (fl (fl (IZR N) / fl (IZR D)) - T) / T <= s + / 1048576)%R.
Proof.
  intros HN HD Hs Hq. unfold u32_max in HD.
  destruct HD as [HD1 HD2]. apply IZR_le in HD1, HD2.
  destruct HN as [HN1 HN2]. apply IZR_le in HN1, HN2.
  pose proof (fl_rel (IZR N)) as Ha.
  assert (Ha' : ((1 - rho) * IZR N <= fl (IZR N) <= (1 + rho) * IZR N)%R)
    by (apply Ha; unfold b32_big; lra).
  clear Ha. set (a := fl (IZR N)) in *.
  assert (Hap : (0 < a)%R) by (unfold rho in *; lra).
  set (x := (a / T)%R) in *. set (q := fl x) in *.
  assert (Hq2 : (2 <= q)%R) by lra.
  assert (Hqhi : (q < 6442450944)%R).
  { assert (IZR D * (1 + s) <= 4294967295 * (3 / 2))%R by nra. lra. }
  assert (Hxb : (Rabs x <= b32_big)%R).
  { destruct (Rle_dec (Rabs x) b32_big) as [|Hn]; [assumption|].
    assert (Hb := fl_big x ltac:(lra)). fold q in Hb.
    rewrite Rabs_pos_eq in Hb by lra. unfold b32_big in *. lra. }
  assert (Hxlo : (/ 1099511627776 <= x)%R).
  { destruct (Rle_dec (/ 1099511627776) x) as [|Hn]; [assumption|].
    assert (He := fl_err x Hxb). fold q in He. apply Rabs_le_bounds in He.
    unfold b32_eps, b32_eta in He. unfold Rabs in He.
    destruct (Rcase_abs x); lra. }
  assert (Hqx : ((1 - rho) * x <= q <= (1 + rho) * x)%R) by (apply fl_rel; apply Rabs_le_bounds in Hxb; lra).
  assert (HT : (0 < T)%R).
  { destruct (Rlt_le_dec 0 T) as [|HT]; [assumption|].
    destruct (Req_dec T 0) as [E|E].
    - exfalso. assert (x = 0)%R by (unfold x; rewrite E; unfold Rdiv;
        rewrite Rinv_0; ring). lra.
    - exfalso. assert (x * T = a)%R by (unfold x; field; exact E). nra. }
  assert (Hb : ((1 - rho) * IZR D <= fl (IZR D) <= (1 + rho) * IZR D)%R)
    by (apply fl_rel; unfold b32_big; lra).
  set (b := fl (IZR D)) in *.
  assert (Hbp : (0 < b)%R) by (unfold rho in *; lra).
  set (y := (a / b)%R).
  assert (Hyb : (y * b = a)%R) by (unfold y; field; lra).
  assert (Hyp : (0 < y)%R) by (unfold y; apply Rdiv_lt_0_compat; lra).
  assert (Hy : ((1 - rho) * y <= fl y <= (1 + rho) * y)%R).
  { apply fl_rel. unfold rho, b32_big in *. split; nra. }
  split; [exact HT|].
  apply (quant_core a T x q (IZR D) b y (fl y) s); auto; lra.
Qed.

Local Abbreviation ops := (real_ops fl).

Lemma quotient_bounds (K : Z) :
  1 <= K <= u32_max -> 8 <= Z.quot TIMER_CLOCK_TIMES_1000 K <= 36000000000.
Proof.
  unfold u32_max, TIMER_CLOCK_TIMES_1000. intros HK.
  rewrite Z.quot_div_nonneg by lia.
  split; [apply Z.div_le_lower_bound | apply Z.div_le_upper_bound]; lia.
Qed.

(** The tick count of an unclipped translation whose quotient stays below
    0xFFFFFFFF is the floor of the quotient. *)
Lemma real_ticks (q : R) :
  (q < IZR u32_max)%R -> (real_to_u32 q <? 2) = false ->
  2 <= real_to_u32 q /\ real_to_u32 q = Int_part q /\
  (IZR (real_to_u32 q) <= q < IZR (real_to_u32 q) + 1)%R.
Proof.
  intros Hq Hc. apply Z.ltb_ge in Hc.
  destruct (Int_part_bounds q) as [H1 H2].
  assert (Int_part q < u32_max) by (apply lt_IZR; lra).
  unfold real_to_u32 in *.
  replace (Z.max 0 (Z.min (Int_part q) u32_max)) with (Int_part q) in * by lia.
  auto.
Qed.

Lemma quant_translate32 (g g' : Globals R) :
  Waveform (sFrequencyInfo g) = WAVEFORM_SQUARE ->
  1 <= FrequencyFactorTimes1000 (sFrequencyInfo g) <= u32_max ->
  (@tPeriod R ops (sFrequencyInfo g) < IZR u32_max)%R ->
  @setWaveformFrequency R ops STM32F30X g = Some (false, g') ->
  (0 < Frequency (sFrequencyInfo g') /\
   Rabs (@realized_frequency R ops (sFrequencyInfo g')
         - Frequency (sFrequencyInfo g')) / Frequency (sFrequencyInfo g')
   <= 1 / IZR (DividerInt (sFrequencyInfo g')) + / 1048576)%R.
Proof.
  intros Hw HK Hq E.
  rewrite setWaveformFrequency_eq, Hw, Z.eqb_refl in E. unfold square_reload in E.
  change (@f_to_u32 R ops) with real_to_u32 in E.
  destruct (real_to_u32 (@tPeriod R ops (sFrequencyInfo g)) <? 2) eqn:Hc;
    [discriminate|].
  injection E as <-.
  destruct (real_ticks _ Hq Hc) as (Ht2 & _ & Htq).
  revert Ht2 Htq. unfold tPeriod.
  set (t := real_to_u32 _). intros Ht2 Htq.
  destruct g as [[D P T K I W O] is10 calls disp]. cbn in *.
  pose proof (quotient_bounds K HK) as HN.
  assert (Ht : t <= u32_max) by (unfold t, real_to_u32; lia).
  apply IZR_le in Ht2 as Ht2'.
  apply (quant_bound (Z.quot TIMER_CLOCK_TIMES_1000 K) t T (1 / IZR t));
    auto.
  - split; [apply Rdiv_lt_0_compat; lra|].
    apply (Rmult_le_reg_r (IZR t)); [lra|]. field_simplify; lra.
  - split; [lra|]. replace (IZR t * (1 + 1 / IZR t))%R with (IZR t + 1)%R
      by (field; lra). lra.
Qed.

Lemma quant_translate16 (g g' : Globals R) :
  Waveform (sFrequencyInfo g) = WAVEFORM_SQUARE ->
  1 <= FrequencyFactorTimes1000 (sFrequencyInfo g) <= u32_max ->
  (@tPeriod R ops (sFrequencyInfo g) < IZR u32_max)%R ->
  @setWaveformFrequency R ops Timer16Platform g = Some (false, g') ->
  exists reload prescaler,
    timerCalls g' = Synth_Timer16_SetReloadValue reload prescaler :: timerCalls g /\
    (0 < Frequency (sFrequencyInfo g') /\
     Rabs (@realized_frequency R ops (sFrequencyInfo g')
           - Frequency (sFrequencyInfo g')) / Frequency (sFrequencyInfo g')
     <= 1 / IZR reload + / 1048576)%R.
Proof.
  intros Hw HK Hq E.
  rewrite setWaveformFrequency_eq, Hw, Z.eqb_refl, square_reload_16 in E.
  change (@f_to_u32 R ops) with real_to_u32 in E.
  destruct (real_to_u32 (@tPeriod R ops (sFrequencyInfo g)) <? 2) eqn:Hc;
    [discriminate|].
  apply (f_equal (fun o => match o with Some (_, x) => x | None => g' end)) in E.
  cbv beta iota in E. subst g'.
  destruct (real_ticks _ Hq Hc) as (_ & _ & Htq).
  pose proof (@clipped_ticks_range R ops (sFrequencyInfo g)) as Ht.
  assert (Hct : @clipped_ticks R ops (sFrequencyInfo g)
                = real_to_u32 (@tPeriod R ops (sFrequencyInfo g))).
  { unfold clipped_ticks. change (@f_to_u32 R ops) with real_to_u32.
    rewrite Hc. reflexivity. }
  rewrite Hct in *.
  change (@tPeriod R ops (sFrequencyInfo g)) with
    (fl (fl (IZR (Z.quot TIMER_CLOCK_TIMES_1000
                   (FrequencyFactorTimes1000 (sFrequencyInfo g))))
         / Frequency (sFrequencyInfo g))) in *.
  remember (real_to_u32 _) as t eqn:Et.
  destruct (prescaler_split t Ht) as (Hp & Hr & Hr2 & Hle).
  remember (Z.shiftr t 16 + 1) as p eqn:Ep.
  remember (if 1 <? p then t / p else t) as r eqn:Er.
  exists r, p. split; [reflexivity|].
  assert (Hlt : t < r * p + p).
  { rewrite Hr. pose proof (Z.div_mod t p ltac:(lia)).
    pose proof (Z.mod_pos_bound t p ltac:(lia)). lia. }
  assert (HD : (r * p) mod 2 ^ 32 = r * p).
  { apply Z.mod_small. clear -Hle Ht Hr2 Hp. unfold u32_max in *. nia. }
  assert (HrpD : 2 <= r * p <= u32_max).
  { clear -Hle Ht Hr2 Hp. split; [|unfold u32_max in *; lia].
    assert (2 * 1 <= r * p) by (apply Z.mul_le_mono_nonneg; lia). lia. }
  change (0 < Frequency (sFrequencyInfo g) /\
    Rabs (fl (fl (IZR (Z.quot TIMER_CLOCK_TIMES_1000
                        (FrequencyFactorTimes1000 (sFrequencyInfo g))))
              / fl (IZR ((r * p) mod 2 ^ 32)))
          - Frequency (sFrequencyInfo g)) / Frequency (sFrequencyInfo g)
    <= 1 / IZR r + / 1048576)%R.
  rewrite HD.
  pose proof (quotient_bounds _ HK) as HN.
  assert (Hr2' : (2 <= IZR r)%R) by (apply IZR_le; lia).
  apply (quant_bound _ (r * p) (Frequency (sFrequencyInfo g)) (1 / IZR r) HN HrpD).
  - split; [apply Rdiv_lt_0_compat; lra|].
    apply (Rmult_le_reg_r (IZR r)); [lra|]. field_simplify; lra.
  - assert (Hle' : (IZR (r * p) <= IZR t)%R) by (apply IZR_le; exact Hle).
    assert (Hlt' : (IZR t + 1 <= IZR (r * p + p))%R)
      by (rewrite <- plus_IZR; apply IZR_le; clear -Hlt; lia).
    split; [lra|].
    replace (IZR (r * p) * (1 + 1 / IZR r))%R with (IZR (r * p + p))%R
      by (rewrite plus_IZR, mult_IZR; field; lra). lra.
Qed.

(** C8 (amended): for a square wave translated without clipping whose
    single precision tick quotient stays below 0xFFFFFFFF (no saturation),
    on either platform, the target [Frequency] is positive and the realized
    frequency recomputed from the integer period satisfies
    [|realized - target| / target <= 1 / reload + 2^-20]: [target] is in
    the unit of its decade (the factor is not applied), [reload] is the
    reload passed to the driver (the 16 bit prescaler is not counted) and
    [2^-20] covers the single precision roundings ([fl] with the error bound
    of binary32 round to nearest). *)
Theorem quantisation_decade_bound (pf : Platform) (g g' : Globals R) :
  Waveform (sFrequencyInfo g) = WAVEFORM_SQUARE ->
  1 <= FrequencyFactorTimes1000 (sFrequencyInfo g) <= u32_max ->
  (@tPeriod R ops (sFrequencyInfo g) < IZR u32_max)%R ->
  @setWaveformFrequency R ops pf g = Some (false, g') ->
  exists call, timerCalls g' = call :: timerCalls g /\
    (0 < Frequency (sFrequencyInfo g') /\
     Rabs (@realized_frequency R ops (sFrequencyInfo g')
           - Frequency (sFrequencyInfo g')) / Frequency (sFrequencyInfo g')
     <= 1 / IZR (reload_of_call call) + / 1048576)%R.
Proof.
  intros Hw HK Hq E. destruct pf.
  - pose proof (setWaveformFrequency_32_call g g' false Hw E) as Hc.
    destruct (quant_translate32 g g' Hw HK Hq E) as [HT Hb].
    eexists. split; [exact Hc|]. split; [exact HT|exact Hb].
  - destruct (quant_translate16 g g' Hw HK Hq E) as (r & p & Hc & HT & Hb).
    eexists. split; [exact Hc|]. split; [exact HT|exact Hb].
Qed.

End Quantisation.

Lemma exact_fl_err (x : R) :
  (Rabs x <= b32_big -> Rabs ((fun y => y) x - x) <= b32_eps * Rabs x + b32_eta)%R.
Proof.
  intros _. cbv beta. replace (x - x)%R with 0%R by ring. rewrite Rabs_R0.
  pose proof (Rabs_pos x). unfold b32_eps, b32_eta. lra.
Qed.

Lemma exact_fl_big (x : R) :
  (b32_big <= Rabs x -> b32_big <= Rabs ((fun y => y) x))%R.
Proof. auto. Qed.

Lemma exact_tPeriod_2000 :
  @tPeriod R exact_ops (sFrequencyInfo (real_square_globals 2000 1)) = 18000%R.
Proof. change (IZR 36000000 / 2000 = 18000)%R. field. Qed.

Lemma quantisation_decade_bound_witness :
  Waveform (sFrequencyInfo (real_square_globals 2000 1)) = WAVEFORM_SQUARE /\
  1 <= FrequencyFactorTimes1000 (sFrequencyInfo (real_square_globals 2000 1))
    <= u32_max /\
  (@tPeriod R exact_ops (sFrequencyInfo (real_square_globals 2000 1))
     < IZR u32_max)%R /\
  exists g', @setWaveformFrequency R exact_ops STM32F30X
               (real_square_globals 2000 1) = Some (false, g') /\
  exists call, timerCalls g' = [call] /\
    (Rabs (@realized_frequency R exact_ops (sFrequencyInfo g')
           - Frequency (sFrequencyInfo g')) / Frequency (sFrequencyInfo g')
     <= 1 / IZR (reload_of_call call) + / 1048576)%R.
Proof.
  assert (HK : 1 <= FrequencyFactorTimes1000 (sFrequencyInfo (real_square_globals 2000 1))
    <= u32_max) by (vm_compute; split; discriminate).
  assert (Hq : (@tPeriod R exact_ops (sFrequencyInfo (real_square_globals 2000 1))
     < IZR u32_max)%R) by (rewrite exact_tPeriod_2000; unfold u32_max; lra).
  assert (Hs : exists g', @setWaveformFrequency R exact_ops STM32F30X
               (real_square_globals 2000 1) = Some (false, g')).
  { rewrite setWaveformFrequency_eq.
    change (Waveform (sFrequencyInfo (real_square_globals 2000 1)) =? WAVEFORM_SQUARE)
      with true.
    unfold square_reload. change (@f_to_u32 R exact_ops) with real_to_u32.
    rewrite exact_tPeriod_2000.
    replace (real_to_u32 18000) with 18000
      by (unfold real_to_u32; rewrite (Int_part_IZR_eq 18000 18000) by lra;
          reflexivity).
    eexists; reflexivity. }
  split; [reflexivity|]. split; [exact HK|]. split; [exact Hq|].
  destruct Hs as [g' E]. exists g'. split; [exact E|].
  destruct (quantisation_decade_bound (fun y => y) exact_fl_err exact_fl_big
              STM32F30X (real_square_globals 2000 1) g' eq_refl HK Hq E)
    as (call & Hc & _ & Hb).
  exists call. split; [exact Hc | exact Hb].
Defined.

(** ** Decimal logarithm *)

Section Log10.
Local Open Scope R_scope.


Lemma ln_bounds (x : R) : 0 < x -> 1 - / x <= ln x <= x - 1.
Proof.
  intros Hx. split.
  - pose proof (exp_ineq1_le (ln (/ x))) as H.
    rewrite exp_ln in H by (apply Rinv_0_lt_compat; lra).
    rewrite ln_Rinv in H by lra. lra.
  - pose proof (exp_ineq1_le (ln x)) as H. rewrite exp_ln in H by lra. lra.
Qed.

Lemma ln_10_gt_2 : 2 < ln 10.
Proof.
  pose proof exp_le_3.
  assert (E : exp 2 = exp 1 * exp 1) by (rewrite <- exp_plus; f_equal; lra).
  assert (0 < exp 1) by apply exp_pos.
  assert (exp 2 < 10) by nra.
  rewrite <- (ln_exp 2). apply ln_increasing; [apply exp_pos | exact H1].
Qed.

Lemma log10_Rpower (t : R) : log10 (Rpower 10 t) = t.
Proof.
  unfold log10. rewrite ln_Rpower. field.
  pose proof ln_10_gt_2. lra.
Qed.

Lemma log10_mult (x y : R) : 0 < x -> 0 < y -> log10 (x * y) = log10 x + log10 y.
Proof. intros. unfold log10. rewrite ln_mult by assumption. field.
  pose proof ln_10_gt_2. lra. Qed.

(** A relative perturbation [k] in [1 +- e] moves [log10] by at most [e]
    when [e <= 1/2]. *)
Lemma log10_near_1 (k e : R) :
  0 <= e <= / 2 -> 1 - e <= k <= 1 + e -> Rabs (log10 k) <= e.
Proof.
  intros He Hk. assert (Hk0 : 0 < k) by lra.
  destruct (ln_bounds k Hk0) as [H1 H2].
  pose proof ln_10_gt_2 as H10.
  assert (Hinv : 1 - / k >= - (2 * e)).
  { assert (/ k <= 1 + 2 * e); [|lra].
    apply (Rmult_le_reg_r k); [lra|]. rewrite Rinv_l by lra. nra. }
  unfold log10. apply Rabs_le. split.
  - apply (Rmult_le_reg_r (ln 10)); [lra|]. unfold Rdiv.
    rewrite Rmult_assoc, Rinv_l by lra. nra.
  - apply (Rmult_le_reg_r (ln 10)); [lra|]. unfold Rdiv.
    rewrite Rmult_assoc, Rinv_l by lra. nra.
Qed.

Lemma Rpower_10_range (t : R) : -1 <= t <= 5 -> / 10 <= Rpower 10 t <= 100000.
Proof.
  intros Ht.
  assert (Hm : Rpower 10 (-1) = / 10).
  { replace (-1) with (- (1)) by ring.
    rewrite Rpower_Ropp, Rpower_1 by lra. reflexivity. }
  assert (Hp : Rpower 10 5 = 100000).
  { replace 5 with (INR 5) by (simpl; lra). rewrite Rpower_pow by lra. lra. }
  split.
  - destruct (Req_dec t (-1)) as [->|]; [lra|].
    rewrite <- Hm. left. apply Rpower_lt; lra.
  - destruct (Req_dec t 5) as [->|]; [lra|].
    rewrite <- Hp. left. apply Rpower_lt; lra.
Qed.

End Log10.

(** ** Slider encoding *)


Lemma Int_part_near (M : R) (n : Z) :
  (Rabs (M - IZR n) <= / 1000)%R -> Int_part M = n \/ Int_part M = n - 1.
Proof.
  intros H. apply Rabs_le_bounds in H.
  destruct (Rle_dec (IZR n) M).
  - left. apply Int_part_IZR_eq. lra.
  - right. apply Int_part_IZR_eq. rewrite minus_IZR. lra.
Qed.

Section Slider.

Variables fl pow10d log10f : R -> R.
Hypothesis fl_err : forall x, (Rabs x <= b32_big ->
  Rabs (fl x - x) <= b32_eps * Rabs x + b32_eta)%R.
Hypothesis fl_int : forall z, -16777216 <= z <= 16777216 -> fl (IZR z) = IZR z.
Hypothesis pow10d_err : forall t, (-1 <= t <= 5 ->
  Rabs (pow10d t - Rpower 10 t) <= / 1048576 * Rpower 10 t)%R.
Hypothesis log10f_err : forall x, (0 < x ->
  Rabs (log10f x - log10 x) <= / 1048576)%R.
Hypothesis pow10d_1 : pow10d 1 = 10%R.
Hypothesis log10f_10 : log10f 10 = 1%R.

Local Abbreviation ops := (real_ops fl).
Local Abbreviation libm := (real_libm fl pow10d log10f).

Lemma encode_near (t2 : R) :
  (-1 <= t2 <= 5 ->
   Rabs (fl (log10f (fl (pow10d t2)) * 100) - 100 * t2) <= / 2000)%R.
Proof.
  intros Ht.
  destruct (Rpower_10_range t2 Ht) as [R1 R2].
  set (R10 := Rpower 10 t2) in *.
  pose proof (pow10d_err t2 Ht) as HP. fold R10 in HP.
  apply Rabs_le_bounds in HP.
  set (P := pow10d t2) in *.
  assert (HF : ((1 - rho) * P <= fl P <= (1 + rho) * P)%R).
  { apply (fl_rel fl fl_err). unfold b32_big. lra. }
  set (F := fl P) in *.
  unfold rho in HF.
  assert (HFp : (0 < F)%R) by lra.
  assert (HR10p : (0 < R10)%R) by lra.
  assert (Hk : (Rabs (log10 (F / R10)) <= / 524288)%R).
  { apply log10_near_1; [lra|].
    split; apply (Rmult_le_reg_r R10); try lra; unfold Rdiv;
      rewrite Rmult_assoc, Rinv_l by lra; nra. }
  assert (HlF : (log10 F = log10 (F / R10) + t2)%R).
  { replace F with (F / R10 * R10)%R at 1 by (field; lra).
    rewrite log10_mult by (try apply Rdiv_lt_0_compat; lra).
    unfold R10. rewrite log10_Rpower. reflexivity. }
  pose proof (log10f_err F HFp) as HL.
  apply Rabs_le_bounds in Hk, HL.
  set (L := log10f F) in *.
  assert (HM := fl_err (L * 100)).
  assert (HLb : (Rabs (L * 100) <= 600)%R) by (apply Rabs_le; lra).
  specialize (HM ltac:(unfold b32_big; lra)).
  apply Rabs_le_bounds in HM. unfold b32_eps, b32_eta in HM.
  apply Rabs_le. unfold Rabs in HM.
  destruct (Rcase_abs (L * 100)); lra.
Qed.

(** C7: slider round trip.  For every slider position [s] in [0, 300] and
    either value of [is10HzRange], decoding [s] to a frequency as
    [doFrequencySlider] does and re-encoding it as [printFrequencyAndPeriod]
    does gives a position within one of [s].  Single precision is modelled by
    a rounding [fl] with the binary32 error bound, [pow10d] and [log10f] by
    functions within 2^-20 of [10^t] and [log10]. *)
Theorem slider_round_trip (is10 : bool) (s : Z) :
  0 <= s <= 300 ->
  s - 1 <= @slider_value R ops libm is10 (@slider_frequency R ops libm is10 s)
        <= s + 1.
Proof.
  intros Hs.
  change (@slider_value R ops libm is10 (@slider_frequency R ops libm is10 s))
    with (let tV := fl (fl (IZR s) / fl (IZR 100)) in
          let tV2 := if is10 then fl (tV + fl (IZR 1)) else tV in
          let v := real_to_u32 (fl (log10f (fl (pow10d tV2)) * fl (IZR 100)))
                   mod 2 ^ 16 in
          if is10 then (v - 100) mod 2 ^ 16 else v).
  cbv zeta. change (2 ^ 16) with 65536.
  rewrite (fl_int s), (fl_int 100), (fl_int 1) by lia.
  assert (Ht1 := fl_err (IZR s / 100)).
  assert (Hs1 : (0 <= IZR s / 100 <= 3)%R).
  { destruct Hs as [Hs0 Hs3]. apply IZR_le in Hs0, Hs3. lra. }
  specialize (Ht1 ltac:(rewrite Rabs_pos_eq by lra; unfold b32_big; lra)).
  rewrite (Rabs_pos_eq (IZR s / 100)) in Ht1 by lra. apply Rabs_le_bounds in Ht1.
  unfold b32_eps, b32_eta in Ht1.
  set (t1 := fl (IZR s / 100)) in *.
  destruct is10.
  - destruct (Z.eq_dec s 0) as [Es|Hs0].
    + subst s. unfold t1.
      replace (IZR 0 / 100)%R with (IZR 0) by (simpl; field).
      rewrite (fl_int 0) by lia. replace (IZR 0 + 1)%R with (IZR 1) by (simpl; ring).
      rewrite (fl_int 1), pow10d_1 by lia. rewrite (fl_int 10) by lia.
      rewrite log10f_10. replace (1 * 100)%R with (IZR 100) by ring.
      rewrite (fl_int 100) by lia. unfold real_to_u32.
      rewrite (Int_part_IZR_eq (IZR 100) 100) by lra.
      vm_compute. split; discriminate.
    + assert (Ht2 := fl_err (t1 + 1)).
      specialize (Ht2 ltac:(apply Rabs_le; unfold b32_big; lra)).
      rewrite (Rabs_pos_eq (t1 + 1)) in Ht2 by lra. apply Rabs_le_bounds in Ht2.
      unfold b32_eps, b32_eta in Ht2.
      set (t2 := fl (t1 + 1)) in *.
      assert (HM := encode_near t2 ltac:(lra)).
      apply Rabs_le_bounds in HM.
      destruct (Int_part_near (fl (log10f (fl (pow10d t2)) * 100)) (s + 100))
        as [E|E].
      { apply Rabs_le. rewrite plus_IZR.
        replace (IZR s) with (100 * (IZR s / 100))%R by field. lra. }
      all: unfold real_to_u32; rewrite E; unfold u32_max;
        rewrite (Z.min_l _ 4294967295), Z.max_r by lia;
        match goal with |- context [(?x mod 65536 - 100) mod 65536] =>
          rewrite (Z.mod_small x 65536), (Z.mod_small (x - 100) 65536) by lia
        end; lia.
  - assert (HM := encode_near t1 ltac:(lra)).
    apply Rabs_le_bounds in HM.
    destruct (Int_part_near (fl (log10f (fl (pow10d t1)) * 100)) s) as [E|E].
    { apply Rabs_le. replace (IZR s) with (100 * (IZR s / 100))%R by field. lra. }
    all: unfold real_to_u32; rewrite E; unfold u32_max;
      rewrite (Z.min_l _ 4294967295), Z.mod_small by lia; lia.
Qed.

(** The slider position drawn for the frequency of slider position [s]. *)
Lemma slider_position_near (is10 : bool) (s : Z) :
  0 <= s <= 300 ->
  s - 1 <= @slider_value R ops libm is10 (@slider_frequency R ops libm is10 s)
        <= s + 1.
Proof.
  intros Hs.
  change (@slider_value R ops libm is10 (@slider_frequency R ops libm is10 s))
    with (let tV := fl (fl (IZR s) / fl (IZR 100)) in
          let tV2 := if is10 then fl (tV + fl (IZR 1)) else tV in
          let v := real_to_u32 (fl (log10f (fl (pow10d tV2)) * fl (IZR 100)))
                   mod 2 ^ 16 in
          if is10 then (v - 100) mod 2 ^ 16 else v).
  cbv zeta. change (2 ^ 16) with 65536.
  rewrite (fl_int s), (fl_int 100), (fl_int 1) by lia.
  assert (Ht1 := fl_err (IZR s / 100)).
  assert (Hs1 : (0 <= IZR s / 100 <= 3)%R).
  { destruct Hs as [Hs0 Hs3]. apply IZR_le in Hs0, Hs3. lra. }
  specialize (Ht1 ltac:(rewrite Rabs_pos_eq by lra; unfold b32_big; lra)).
  rewrite (Rabs_pos_eq (IZR s / 100)) in Ht1 by lra. apply Rabs_le_bounds in Ht1.
  unfold b32_eps, b32_eta in Ht1.
  set (t1 := fl (IZR s / 100)) in *.
  destruct is10.
  - destruct (Z.eq_dec s 0) as [Es|Hs0].
    + subst s. unfold t1.
      replace (IZR 0 / 100)%R with (IZR 0) by (simpl; field).
      rewrite (fl_int 0) by lia. replace (IZR 0 + 1)%R with (IZR 1) by (simpl; ring).
      rewrite (fl_int 1), pow10d_1 by lia. rewrite (fl_int 10) by lia.
      rewrite log10f_10. replace (1 * 100)%R with (IZR 100) by ring.
      rewrite (fl_int 100) by lia. unfold real_to_u32.
      rewrite (Int_part_IZR_eq (IZR 100) 100) by lra.
      vm_compute. split; discriminate.
    + assert (Ht2 := fl_err (t1 + 1)).
      specialize (Ht2 ltac:(apply Rabs_le; unfold b32_big; lra)).
      rewrite (Rabs_pos_eq (t1 + 1)) in Ht2 by lra. apply Rabs_le_bounds in Ht2.
      unfold b32_eps, b32_eta in Ht2.
      set (t2 := fl (t1 + 1)) in *.
      assert (HM := encode_near t2 ltac:(lra)).
      apply Rabs_le_bounds in HM.
      destruct (Int_part_near (fl (log10f (fl (pow10d t2)) * 100)) (s + 100))
        as [E|E].
      { apply Rabs_le. rewrite plus_IZR.
        replace (IZR s) with (100 * (IZR s / 100))%R by field. lra. }
      all: unfold real_to_u32; rewrite E; unfold u32_max;
        rewrite (Z.min_l _ 4294967295), Z.max_r by lia;
        match goal with |- context [(?x mod 65536 - 100) mod 65536] =>
          rewrite (Z.mod_small x 65536), (Z.mod_small (x - 100) 65536) by lia
        end; lia.
  - assert (HM := encode_near t1 ltac:(lra)).
    apply Rabs_le_bounds in HM.
    destruct (Int_part_near (fl (log10f (fl (pow10d t1)) * 100)) s) as [E|E].
    { apply Rabs_le. replace (IZR s) with (100 * (IZR s / 100))%R by field. lra. }
    all: unfold real_to_u32; rewrite E; unfold u32_max;
      rewrite (Z.min_l _ 4294967295), Z.mod_small by lia; lia.
Qed.

(** [doFrequencySlider]: moving the slider to [s] in [0, 300] stores the
    frequency decoded from [s] in the current range, keeps the decade and
    [is10HzRange], and the slider position drawn back by
    [printFrequencyAndPeriod] is within one of [s] (so the slider does not
    jump), with the rounding model of this section. *)
Theorem doFrequencySlider_slider_position (pf : Platform) (s : Z) (g : Globals R) :
  0 <= s <= 300 ->
  exists g', run (@doFrequencySlider R ops libm pf s) g = Some g' /\
    Frequency (sFrequencyInfo g') = @slider_frequency R ops libm (is10HzRange g) s /\
    FrequencyFactorIndex (sFrequencyInfo g') = FrequencyFactorIndex (sFrequencyInfo g) /\
    FrequencyFactorTimes1000 (sFrequencyInfo g')
      = FrequencyFactorTimes1000 (sFrequencyInfo g) /\
    is10HzRange g' = is10HzRange g /\
    exists v rest, display g' = SetSliderValue v :: rest /\ s - 1 <= v <= s + 1.
Proof.
  intros Hs. unfold run, doFrequencySlider, bind, get, modify_info, ret.
  cbv beta iota.
  match goal with |- context [SetWaveformFrequencyAndPrintValues pf ?g1] =>
    destruct (@SetWaveformFrequencyAndPrintValues_run R ops libm pf g1)
      as (b & g' & E & _ & [d Hd] & H10 & _ & _ & [rest Hdisp])
  end.
  rewrite E. exists g'. split; [reflexivity|].
  rewrite Hd, H10. simpl in Hdisp |- *.
  destruct (sFrequencyInfo g) as [di pm fr fac idx w oe]. simpl in *.
  split; [reflexivity|]. split; [reflexivity|]. split; [reflexivity|].
  split; [reflexivity|].
  eexists. exists rest. split; [exact Hdisp|].
  apply slider_position_near. exact Hs.
Qed.

End Slider.





Lemma exact_fl_int (z : Z) :
  -16777216 <= z <= 16777216 -> (fun x : R => x) (IZR z) = IZR z.
Proof. reflexivity. Qed.

Lemma exact_pow10d_err (t : R) :
  (-1 <= t <= 5 ->
   Rabs (Rpower 10 t - Rpower 10 t) <= / 1048576 * Rpower 10 t)%R.
Proof.
  intros _. replace (Rpower 10 t - Rpower 10 t)%R with 0%R by ring.
  rewrite Rabs_R0. unfold Rpower. pose proof (exp_pos (t * ln 10)). lra.
Qed.

Lemma exact_log10f_err (x : R) :
  (0 < x -> Rabs (log10 x - log10 x) <= / 1048576)%R.
Proof.
  intros _. replace (log10 x - log10 x)%R with 0%R by ring. rewrite Rabs_R0. lra.
Qed.

Lemma log10_10 : log10 10 = 1%R.
Proof. unfold log10. field. pose proof ln_10_gt_2. lra. Qed.

Lemma slider_round_trip_witness :
  (0 <= 150 <= 300) /\
  150 - 1 <= @slider_value R exact_ops exact_libm true
               (@slider_frequency R exact_ops exact_libm true 150) <= 150 + 1.
Proof.
  split; [lia|].
  apply (slider_round_trip (fun x => x) (Rpower 10) log10 exact_fl_err exact_fl_int
           exact_pow10d_err exact_log10f_err (Rpower_1 10 ltac:(lra)) log10_10
           true 150).
  lia.
Defined.

(** ** Other handlers of the page *)

(** The [uint32_t] loop of [setFrequencyFactor] computes a power of 1000
    modulo 2^32. *)
Lemma factor_loop_pow (n : nat) (t : Z) :
  0 <= t < 2 ^ 32 -> factor_loop n t = (t * 1000 ^ Z.of_nat n) mod 2 ^ 32.
Proof.
  revert t. induction n as [|n IH]; intros t Ht.
  - simpl. rewrite Z.mul_1_r, Z.mod_small by lia. reflexivity.
  - simpl factor_loop. rewrite IH by (apply Z.mod_pos_bound; lia).
    rewrite Zmult_mod_idemp_l, Nat2Z.inj_succ, Z.pow_succ_r by lia.
    f_equal. ring.
Qed.

(** [setFrequencyFactor n] stores the index [n mod 256] and the factor
    [1000^n mod 2^32] (1 for [n <= 0]), exactly [1000^n] up to [n = 3]
    (for [n = 4] it wraps to 3567587328); nothing else changes. *)
Theorem setFrequencyFactor_stores {F} `{Float32 F} (n : Z) (g : Globals F) :
  exists g', setFrequencyFactor n g = Some (tt, g') /\
    FrequencyFactorIndex (sFrequencyInfo g') = n mod 256 /\
    FrequencyFactorTimes1000 (sFrequencyInfo g') = 1000 ^ Z.max 0 n mod 2 ^ 32 /\
    (n <= 3 -> FrequencyFactorTimes1000 (sFrequencyInfo g') = 1000 ^ Z.max 0 n) /\
    Frequency (sFrequencyInfo g') = Frequency (sFrequencyInfo g) /\
    DividerInt (sFrequencyInfo g') = DividerInt (sFrequencyInfo g) /\
    PeriodMicros (sFrequencyInfo g') = PeriodMicros (sFrequencyInfo g) /\
    Waveform (sFrequencyInfo g') = Waveform (sFrequencyInfo g) /\
    isOutputEnabled (sFrequencyInfo g') = isOutputEnabled (sFrequencyInfo g) /\
    is10HzRange g' = is10HzRange g /\ timerCalls g' = timerCalls g /\
    display g' = display g.
Proof.
  eexists; split; [reflexivity|]. simpl.
  rewrite factor_loop_pow by lia.
  replace (Z.of_nat (Z.to_nat n)) with (Z.max 0 n) by lia.
  rewrite Z.mul_1_l.
  split; [reflexivity|]. split; [reflexivity|]. split; [|auto 9].
  intros Hn. apply Z.mod_small. split; [apply Z.pow_nonneg; lia|].
  destruct (Z.max_spec 0 n) as [[Hp ->]|[Hp ->]].
  - destruct (ltac:(lia) : n = 1 \/ n = 2 \/ n = 3) as [-> | [-> | ->]];
      vm_compute; reflexivity.
  - vm_compute; reflexivity.
Qed.

(** [initFrequencyGeneratorPage], from any state, in binary32: a square
    wave of 200 Hz (decade 1, factor 1000), output enabled, period 180000
    timer ticks, programmed as the reload 180000 on the 32 bit platform and
    as the reload 60000 with prescaler 3 on the 16 bit platform;
    [is10HzRange] and the display are unchanged. *)
Theorem initFrequencyGeneratorPage_state (pf : Platform) (g : Globals spec_float) :
  run (initFrequencyGeneratorPage pf) g =
  Some (mkGlobals spec_float
    (mkFrequencyInfo spec_float 180000 (PeriodMicros (sFrequencyInfo g))
       (Binary32.of_Z 200) 1000 1 WAVEFORM_SQUARE true)
    (is10HzRange g)
    (match pf with
     | STM32F30X => Synth_Timer32_SetReloadValue 180000
     | Timer16Platform => Synth_Timer16_SetReloadValue 60000 3
     end :: timerCalls g)
    (display g)).
Proof. destruct g as [[] ? ? ?]; destruct pf; vm_compute; reflexivity. Qed.

(** The unit of the displayed period in [printFrequencyAndPeriod], under the
    binary32 rounding model. *)
Section PeriodUnit.

Variable fl : R -> R.
Hypothesis fl_err : forall x, (Rabs x <= b32_big ->
  Rabs (fl x - x) <= b32_eps * Rabs x + b32_eta)%R.
Hypothesis fl_int : forall z, -16777216 <= z <= 16777216 -> fl (IZR z) = IZR z.

Local Abbreviation ops := (real_ops fl).

Lemma period_micros_gt (D : Z) :
  0 <= D <= u32_max ->
  real_gtb (fl (fl (IZR D) / fl (IZR 36))) (fl (IZR 10000)) = (360000 <? D).
Proof.
  intros HD. unfold u32_max in HD.
  rewrite (fl_int 36), (fl_int 10000) by lia.
  unfold real_gtb.
  assert (Hrel : forall x, (/ 1099511627776 <= x <= b32_big ->
                 (1 - rho) * x <= fl x <= (1 + rho) * x)%R)
    by exact (fl_rel fl fl_err).
  destruct (Z_le_gt_dec D 16777216) as [Hs|Hb].
  - rewrite (fl_int D) by lia.
    destruct (Z.lt_trichotomy D 360000) as [Hlt|[->|Hgt]].
    + assert (HD' : (IZR D <= 359999)%R) by (apply IZR_le; lia).
      pose proof (IZR_le 0 D ltac:(lia)).
      assert (Hx := fl_err (IZR D / IZR 36)).
      rewrite Rabs_pos_eq in Hx by (unfold Rdiv; apply Rmult_le_pos; [lra|apply Rlt_le, Rinv_0_lt_compat; lra]).
      assert (Hb : (IZR D / IZR 36 <= b32_big)%R)
        by (unfold b32_big; apply (Rmult_le_reg_r 36); [lra|];
            unfold Rdiv; rewrite Rmult_assoc, Rinv_l by lra; lra).
      specialize (Hx Hb). apply Rabs_le_bounds in Hx.
      assert (Hq : (IZR D / IZR 36 <= 359999 / 36)%R)
        by (unfold Rdiv; apply Rmult_le_compat_r; lra).
      unfold b32_eps, b32_eta in Hx.
      destruct (Rlt_dec _ _) as [Hc|]; [exfalso; lra|].
      symmetry. apply Z.ltb_ge. lia.
    + replace (IZR 360000 / IZR 36)%R with (IZR 10000) by (field_simplify; lra).
      rewrite (fl_int 10000) by lia.
      destruct (Rlt_dec _ _) as [Hc|]; [lra|reflexivity].
    + assert (HD' : (360001 <= IZR D)%R) by (apply IZR_le; lia).
      assert (HD2 : (IZR D <= 16777216)%R) by (apply IZR_le; lia).
      destruct (Hrel (IZR D / IZR 36)%R) as [Hlo _].
      { split; unfold Rdiv.
        - apply (Rmult_le_reg_r 36); [lra|].
          rewrite Rmult_assoc, Rinv_l by lra. lra.
        - apply (Rmult_le_reg_r 36); [lra|]. unfold b32_big.
          rewrite Rmult_assoc, Rinv_l by lra. lra. }
      assert (Hq : (360001 / 36 <= IZR D / IZR 36)%R)
        by (unfold Rdiv; apply Rmult_le_compat_r; lra).
      unfold rho in Hlo.
      destruct (Rlt_dec _ _) as [Hc|Hc]; [|exfalso; lra].
      symmetry. apply Z.ltb_lt. lia.
  - assert (HD' : (16777217 <= IZR D <= 4294967295)%R)
      by (split; apply IZR_le; lia).
    destruct (Hrel (IZR D)) as [Hlo1 Hhi1].
    { unfold b32_big. lra. }
    unfold rho in Hlo1, Hhi1.
    destruct (Hrel (fl (IZR D) / IZR 36)%R) as [Hlo _].
    { split; unfold Rdiv.
      - apply (Rmult_le_reg_r 36); [lra|].
        rewrite Rmult_assoc, Rinv_l by lra. lra.
      - apply (Rmult_le_reg_r 36); [lra|]. unfold b32_big.
        rewrite Rmult_assoc, Rinv_l by lra. lra. }
    assert (Hq : (16000000 / 36 <= fl (IZR D) / IZR 36)%R)
      by (unfold Rdiv; apply Rmult_le_compat_r; lra).
    unfold rho in Hlo.
    destruct (Rlt_dec _ _) as [Hc|Hc]; [|exfalso; lra].
    symmetry. apply Z.ltb_lt. lia.
Qed.

(** [printFrequencyAndPeriod] draws the frequency, then the period, then the
    slider value (the display list holds the latest drawing first), and
    changes nothing else. The period is shown in
    milliseconds exactly when the timer period [DividerInt] exceeds 360000
    ticks (10 ms at 36 ticks per microsecond), and in microseconds
    otherwise. *)
Theorem printFrequencyAndPeriod_period_unit (lm : Libm R) (g : Globals R) :
  0 <= DividerInt (sFrequencyInfo g) <= u32_max ->
  exists s p u fr,
    @printFrequencyAndPeriod R ops lm g =
      Some (tt, mkGlobals R (sFrequencyInfo g) (is10HzRange g) (timerCalls g)
                  (SetSliderValue s :: DrawPeriod p u
                   :: DrawFrequency fr (FrequencyFactorIndex (sFrequencyInfo g))
                   :: display g)) /\
    (u = MILLI_CHAR <-> 360000 < DividerInt (sFrequencyInfo g)) /\
    (u = MICRO_CHAR <-> DividerInt (sFrequencyInfo g) <= 360000).
Proof.
  intros HD. unfold printFrequencyAndPeriod, bind, get, draw.
  change (@f_gtb R ops) with real_gtb.
  change (@f_div R ops (@f_of_Z R ops (DividerInt (sFrequencyInfo g))) (@f_of_Z R ops 36))
    with (fl (fl (IZR (DividerInt (sFrequencyInfo g))) / fl (IZR 36))).
  change (@f_of_Z R ops 10000) with (fl (IZR 10000)).
  rewrite period_micros_gt by exact HD.
  destruct (360000 <? DividerInt (sFrequencyInfo g)) eqn:E;
    [apply Z.ltb_lt in E|apply Z.ltb_ge in E]; cbv beta iota;
    do 4 eexists; (split; [reflexivity|]); unfold MILLI_CHAR, MICRO_CHAR;
    split; split; intros; try lia; try reflexivity; discriminate.
Qed.

End PeriodUnit.

Lemma printFrequencyAndPeriod_period_unit_witness :
  0 <= DividerInt (sFrequencyInfo (mkGlobals R
         (mkFrequencyInfo R 720000 0 50%R 1 0 WAVEFORM_SQUARE true) false [] []))
    <= u32_max /\
  exists s p fr,
    @printFrequencyAndPeriod R (real_ops (fun x => x)) exact_libm
      (mkGlobals R (mkFrequencyInfo R 720000 0 50%R 1 0 WAVEFORM_SQUARE true) false [] [])
    = Some (tt, mkGlobals R (mkFrequencyInfo R 720000 0 50%R 1 0 WAVEFORM_SQUARE true)
                  false [] [SetSliderValue s; DrawPeriod p MILLI_CHAR; DrawFrequency fr 0]).
Proof.
  assert (HD : 0 <= 720000 <= u32_max) by (unfold u32_max; lia).
  split; [exact HD|].
  destruct (printFrequencyAndPeriod_period_unit (fun x => x) exact_fl_err exact_fl_int
              exact_libm (mkGlobals R
                (mkFrequencyInfo R 720000 0 50%R 1 0 WAVEFORM_SQUARE true) false [] []) HD)
    as (s & p & u & fr & E & Hmilli & _).
  assert (Hu : u = MILLI_CHAR) by (apply Hmilli; simpl; lia).
  subst u. exists s, p, fr. exact E.
Defined.

(** The decade index and the decade factor stay consistent through every
    handler of the page. *)
Section Invariant.

Context {F : Type} `{Float32 F} `{Libm F}.

Lemma normalize_loop_index (fuel : nat) (v v' : F) (t i : Z) :
  0 <= t -> t + Z.of_nat fuel <= 255 ->
  normalize_loop fuel v t = Some (v', i) -> t <= i <= t + Z.of_nat fuel.
Proof.
  revert v t. induction fuel as [|fuel IH]; intros v t Ht Hf E; simpl in E.
  - destruct (f_gtb v (f_of_Z 1000)); [discriminate|]. injection E as _ <-. lia.
  - destruct (f_gtb v (f_of_Z 1000)).
    + rewrite Z.mod_small in E by lia.
      apply IH in E; lia.
    + injection E as _ <-. lia.
Qed.

Lemma normalize_index (v v' : F) (i : Z) :
  normalize v = Some (v', i) -> 0 <= i <= 65.
Proof.
  unfold normalize. destruct (normalize_loop loop_fuel v 1) as [[w t]|] eqn:E;
    [|discriminate].
  apply normalize_loop_index in E; [|lia|simpl; lia]. simpl in E.
  destruct (f_ltb w (f_of_Z 1)); intros E'; injection E' as _ <-; lia.
Qed.

Lemma setFrequency_consistent (pf : Platform) (v : F) (g g' : Globals F) :
  factor_consistent (sFrequencyInfo g) ->
  run (setFrequency pf v) g = Some g' -> factor_consistent (sFrequencyInfo g').
Proof.
  intros Hc E.
  destruct (Z.eq_dec (Waveform (sFrequencyInfo g)) WAVEFORM_SQUARE) as [Hw|Hw].
  - destruct (normalize v) as [[v' i]|] eqn:En.
    + destruct (setFrequency_square pf g v v' i Hw En) as (g1 & E1 & _ & Hi & Hf & _).
      rewrite E1 in E. injection E as <-.
      pose proof (normalize_index _ _ _ En).
      unfold factor_consistent. rewrite Hi, Hf, Z.mod_small by lia. lia.
    + unfold run, setFrequency, bind, get in E.
      rewrite Hw, Z.eqb_refl, En in E. discriminate.
  - destruct (setFrequency_other pf g v Hw) as (g1 & E1 & _ & Hi & Hf).
    rewrite E1 in E. injection E as <-.
    unfold factor_consistent. rewrite Hi, Hf. exact Hc.
Qed.

Lemma SetWaveformFrequencyAndPrintValues_consistent (pf : Platform) (g : Globals F) :
  factor_consistent (sFrequencyInfo g) ->
  exists b g', SetWaveformFrequencyAndPrintValues pf g = Some (b, g') /\
    factor_consistent (sFrequencyInfo g').
Proof.
  intros Hc.
  destruct (SetWaveformFrequencyAndPrintValues_run pf g)
    as (b & g' & E & _ & [d Hd] & _).
  exists b, g'. split; [exact E|]. rewrite Hd.
  destruct (sFrequencyInfo g); exact Hc.
Qed.

(** Every handler of the page keeps [FrequencyFactorTimes1000] equal to the
    [uint32_t] power of 1000 computed by [setFrequencyFactor] from the stored
    [FrequencyFactorIndex]: [setFrequency], [doSetFrequency],
    [doFrequencySlider], [doSetFixedFrequency], [doChangeFrequencyRange] for
    the five range buttons, [doFrequencyGeneratorStartStop],
    [startFrequencyGeneratorPage] and [initFrequencyGeneratorPage]. *)
Theorem handlers_keep_factor_consistent (pf : Platform) (g : Globals F) :
  factor_consistent (sFrequencyInfo g) ->
  (forall v g', run (setFrequency pf v) g = Some g' ->
     factor_consistent (sFrequencyInfo g')) /\
  (forall v g', run (doSetFrequency pf v) g = Some g' ->
     factor_consistent (sFrequencyInfo g')) /\
  (forall s g', run (doFrequencySlider pf s) g = Some g' ->
     factor_consistent (sFrequencyInfo g')) /\
  (forall c g', run (doSetFixedFrequency pf c) g = Some g' ->
     factor_consistent (sFrequencyInfo g')) /\
  (forall a v g', 0 <= v <= 4 ->
     run (doChangeFrequencyRange pf a v) g = Some g' ->
     factor_consistent (sFrequencyInfo g')) /\
  (forall v g', run (doFrequencyGeneratorStartStop pf v) g = Some g' ->
     factor_consistent (sFrequencyInfo g')) /\
  (forall g', run (startFrequencyGeneratorPage pf) g = Some g' ->
     factor_consistent (sFrequencyInfo g')) /\
  (forall g', run (initFrequencyGeneratorPage pf) g = Some g' ->
     factor_consistent (sFrequencyInfo g')).
Proof.
  intros Hc. split; [|split; [|split; [|split; [|split; [|split; [|split]]]]]].
  - intros v g'. apply setFrequency_consistent. exact Hc.
  - intros v g' E.
    unfold run, doSetFrequency, bind in E.
    destruct (setFrequency pf v g) as [[[] g1]|] eqn:E1; [|discriminate].
    assert (Hc1 : factor_consistent (sFrequencyInfo g1)).
    { apply (setFrequency_consistent pf v g); [exact Hc|]. unfold run. rewrite E1. reflexivity. }
    destruct (printFrequencyAndPeriod_keeps g1) as (g2 & E2 & Hi & _).
    rewrite E2 in E. injection E as <-. rewrite Hi. exact Hc1.
  - intros s g' E. unfold run, doFrequencySlider, bind, get, modify_info, ret in E.
    cbv beta iota in E.
    match type of E with context [SetWaveformFrequencyAndPrintValues pf ?g1] =>
      destruct (SetWaveformFrequencyAndPrintValues_consistent pf g1)
        as (b & g2 & E2 & Hc2); [destruct (sFrequencyInfo g); exact Hc|]
    end.
    rewrite E2 in E. injection E as <-. exact Hc2.
  - intros c g' E. unfold run, doSetFixedFrequency, bind, get, modify_info in E.
    cbv beta iota in E.
    match type of E with context [SetWaveformFrequencyAndPrintValues pf ?g1] =>
      destruct (SetWaveformFrequencyAndPrintValues_consistent pf g1)
        as (b & g2 & E2 & Hc2); [destruct (sFrequencyInfo g); exact Hc|]
    end.
    rewrite E2 in E. injection E as <-. exact Hc2.
  - intros a v g' Hv E. unfold run, doChangeFrequencyRange in E.
    destruct (a =? v); cbv [negb] in E; cbv beta iota in E.
    + unfold ret in E. injection E as <-. exact Hc.
    + unfold bind, set_is10HzRange, setFrequencyFactor, modify_info, ret in E.
      cbv beta iota in E.
      match type of E with context [SetWaveformFrequencyAndPrintValues pf ?g1] =>
        destruct (SetWaveformFrequencyAndPrintValues_consistent pf g1)
          as (b & g2 & E2 & Hc2)
      end.
      * unfold factor_consistent. simpl. destruct (sFrequencyInfo g). simpl.
        assert (v = 0 \/ v = 1 \/ v = 2 \/ v = 3 \/ v = 4)
          as [-> | [-> | [-> | [-> | ->]]]] by lia;
          vm_compute; split; try reflexivity; split; discriminate.
      * rewrite E2 in E. injection E as <-. exact Hc2.
  - intros v g' E. unfold run, doFrequencyGeneratorStartStop, bind, modify_info in E.
    destruct (v =? 0); cbv [negb] in E; cbv beta iota in E.
    + unfold timer_call in E. injection E as <-. destruct (sFrequencyInfo g); exact Hc.
    + unfold timer_call, ret in E. cbv beta iota in E.
      match type of E with context [SetWaveformFrequencyAndPrintValues pf ?g1] =>
        destruct (SetWaveformFrequencyAndPrintValues_consistent pf g1)
          as (b & g2 & E2 & Hc2); [destruct (sFrequencyInfo g); exact Hc|]
      end.
      rewrite E2 in E. injection E as <-. exact Hc2.
  - intros g' E. unfold run, startFrequencyGeneratorPage, drawFrequencyGeneratorPage,
      bind in E.
    destruct (printFrequencyAndPeriod_keeps g) as (g1 & E1 & Hi1 & _).
    rewrite E1 in E.
    destruct (setWaveformFrequency_keeps pf g1) as (b & g2 & E2 & Hf & Hi & Hk & _).
    rewrite E2 in E. unfold timer_call in E. injection E as <-.
    unfold factor_consistent. simpl. rewrite Hi, Hk, Hi1. exact Hc.
  - intros g' E. unfold run, initFrequencyGeneratorPage, bind, modify_info in E.
    cbv beta iota in E.
    destruct (setFrequency pf (f_of_Z 200) _) as [[[] g1]|] eqn:E1; [|discriminate].
    injection E as <-.
    assert (Hc1 : factor_consistent (sFrequencyInfo g1)).
    { eapply setFrequency_consistent; [|unfold run; rewrite E1; reflexivity].
      destruct (sFrequencyInfo g); exact Hc. }
    destruct (sFrequencyInfo g1); exact Hc1.
Qed.

End Invariant.

Lemma handlers_keep_factor_consistent_witness :
  factor_consistent (sFrequencyInfo (real_square_globals 200 1)) /\
  forall a v g', 0 <= v <= 4 ->
    run (@doChangeFrequencyRange R exact_ops exact_libm STM32F30X a v)
      (real_square_globals 200 1) = Some g' ->
    factor_consistent (sFrequencyInfo g').
Proof.
  assert (Hc : factor_consistent (sFrequencyInfo (real_square_globals 200 1))).
  { split; [simpl; lia|reflexivity]. }
  split; [exact Hc|].
  exact (proj1 (proj2 (proj2 (proj2 (proj2
    (@handlers_keep_factor_consistent R exact_ops exact_libm STM32F30X
       (real_square_globals 200 1) Hc)))))).
Defined.

(** [doSetFixedFrequency] in binary32, for a fixed frequency button pressed
    on a square wave with a consistent decade of at most 3: the caption is
    multiplied by 10 in the 10 Hz range, stored as the frequency of the
    current decade (decade, factor and range unchanged), and the handler
    reports an error exactly in the MHz decade (index 3) above 18 MHz, where
    the timer period is clipped. *)
Theorem doSetFixedFrequency_b32 `{Libm spec_float} (pf : Platform)
    (g : Globals spec_float) (c : Z) :
  In c FixedFrequencyButtonCaptions ->
  Waveform (sFrequencyInfo g) = WAVEFORM_SQUARE ->
  In (FrequencyFactorIndex (sFrequencyInfo g)) [0; 1; 2; 3] ->
  FrequencyFactorTimes1000 (sFrequencyInfo g)
    = factor_loop (Z.to_nat (FrequencyFactorIndex (sFrequencyInfo g))) 1 ->
  let v := if is10HzRange g then 10 * c else c in
  exists g', doSetFixedFrequency pf c g =
      Some (andb (FrequencyFactorIndex (sFrequencyInfo g) =? 3) (18 <? v), g') /\
    Frequency (sFrequencyInfo g') = Binary32.of_Z v /\
    FrequencyFactorIndex (sFrequencyInfo g') = FrequencyFactorIndex (sFrequencyInfo g) /\
    FrequencyFactorTimes1000 (sFrequencyInfo g')
      = FrequencyFactorTimes1000 (sFrequencyInfo g) /\
    is10HzRange g' = is10HzRange g.
Proof.
  intros Hc Hw Hi Hf v.
  unfold doSetFixedFrequency, bind, get, modify_info. cbv beta iota.
  destruct (SetWaveformFrequencyAndPrintValues_run pf
     (set_info (with_Frequency (f_of_Z (if is10HzRange g then to_int16 (c * 10) else c))
        (sFrequencyInfo g)) g)) as (b & g' & E & Hb & [d Hd] & H10 & _).
  rewrite E. exists g'. rewrite Hd, H10. subst v.
  destruct g as [[di pm fr fac idx w oe] is10 tc dp]; simpl in *.
  subst w fac. rewrite Hb. clear E Hb Hd H10.
  destruct is10; simpl in Hc, Hi |- *;
  repeat destruct Hc as [<- | Hc]; try contradiction;
  repeat destruct Hi as [<- | Hi]; try contradiction;
  destruct pf; vm_compute; repeat split.
Qed.

Lemma doSetFixedFrequency_b32_witness :
  In 20 FixedFrequencyButtonCaptions /\
  Waveform (sFrequencyInfo (square_globals 1 3)) = WAVEFORM_SQUARE /\
  In (FrequencyFactorIndex (sFrequencyInfo (square_globals 1 3))) [0; 1; 2; 3] /\
  exists g', @doSetFixedFrequency spec_float _
               (Build_Libm spec_float (fun x => x) (fun x => x))
               STM32F30X 20 (square_globals 1 3) = Some (true, g') /\
    Frequency (sFrequencyInfo g') = Binary32.of_Z 20.
Proof.
  split; [simpl; tauto|]. split; [reflexivity|]. split; [simpl; tauto|].
  destruct (@doSetFixedFrequency_b32 (Build_Libm spec_float (fun x => x) (fun x => x))
              STM32F30X (square_globals 1 3) 20 ltac:(simpl; tauto) eq_refl
              ltac:(simpl; tauto) eq_refl) as (g' & E & Hf & _).
  exists g'. split; [exact E|exact Hf].
Defined.

Lemma doChangeFrequencyRange_effect_witness :
  0 <= 3 <= 4 /\
  exists a g', @doChangeFrequencyRange R exact_ops exact_libm STM32F30X 1 3
                 (real_square_globals 200 1) = Some (a, g') /\
    a = 3 /\ FrequencyFactorIndex (sFrequencyInfo g') = 2 /\
    is10HzRange g' = false.
Proof.
  split; [lia|].
  destruct (@doChangeFrequencyRange_effect R exact_ops exact_libm STM32F30X 1 3
              (real_square_globals 200 1) ltac:(lia)) as (a & g' & E & _ & Hdiff).
  destruct (Hdiff ltac:(lia)) as (Ha & H10 & Hi & _).
  exists a, g'. split; [exact E|]. split; [exact Ha|]. split; [exact Hi|exact H10].
Defined.

Lemma doFrequencySlider_slider_position_witness :
  0 <= 120 <= 300 /\
  exists g', run (@doFrequencySlider R exact_ops exact_libm STM32F30X 120)
               (real_square_globals 200 1) = Some g' /\
    exists v rest, display g' = SetSliderValue v :: rest /\ 119 <= v <= 121.
Proof.
  split; [lia|].
  destruct (doFrequencySlider_slider_position (fun x => x) (Rpower 10) log10
              exact_fl_err exact_fl_int exact_pow10d_err exact_log10f_err
              (Rpower_1 10 ltac:(lra)) log10_10 STM32F30X 120
              (real_square_globals 200 1) ltac:(lia))
    as (g' & E & _ & _ & _ & _ & v & rest & Hd & Hv).
  exists g'. split; [exact E|]. exists v, rest. split; [exact Hd|lia].
Defined.
